(** * Support system: receiver (Flask handler) and sender (chat client)

    A shallow embedding of [Networks/receiver.py] and [Networks/sender.py].

    - Python [float] is IEEE binary64: scores are primitive floats, and
      [score > 0.5] is [PrimFloat.ltb 0.5 score].
    - JSON values as [json.loads] produces them: [None], [bool], [int],
      [float], [str], [list], [dict] (a dict as an association list, the
      first binding of a key being the one [dict.get] sees).
    - A Python computation either returns or raises ([py_result]).
    - [st.session_state] belongs to a browser session and is reached from
      the thread that runs the script for it: there it is an explicit
      record threaded through the calls.  The Flask handler runs in worker
      threads of waitress, which carry no script-run context; what
      [st.session_state] is there is said at [Receiver.handler_session].
    - The collaborators the code calls out to (the [transformers] pipeline,
      the clock, [requests.post]) are inputs; calls to them are recorded in
      an event list.  Diagnostic logging ([logger.info], [logger.error]) has
      no effect on any value the code computes and is left out. *)

From Stdlib Require Import String List ZArith Bool Floats Lia DecimalString.
Import ListNotations.
Open Scope string_scope.
Set Warnings "-register-all".

(** ** Python values shared by both programs *)

Inductive json : Type :=
| JNull
| JBool (b : bool)
| JInt (n : Z)
| JFloat (f : float)
| JString (s : string)
| JArray (items : list json)
| JObject (fields : list (string * json)).

(** Python exceptions that the modelled code can meet. *)
Inductive py_exn : Type :=
| BadRequest             (* werkzeug.exceptions.BadRequest *)
| UnsupportedMediaType   (* werkzeug.exceptions.UnsupportedMediaType *)
| AttributeError
| KeyError
| TypeError
| IndexError
| ModelError             (* anything the classifier pipeline raises *)
| RequestException (detail : string)   (* requests.exceptions.RequestException, with str(e) *).

Inductive py_result (A : Type) : Type :=
| Returns (a : A)
| Raises (e : py_exn).
Arguments Returns {A} a.
Arguments Raises {A} e.

(** [bool(v)] for a value produced by [json.loads]. *)
Definition truthy (v : json) : bool :=
  match v with
  | JNull => false
  | JBool b => b
  | JInt n => negb (n =? 0)%Z
  | JFloat f => negb (f =? 0)%float
  | JString s => negb (s =? "")
  | JArray items => match items with [] => false | _ :: _ => true end
  | JObject fields => match fields with [] => false | _ :: _ => true end
  end.

(** A Python dict with string keys, in insertion order. *)
Definition py_dict (V : Type) : Type := list (string * V).

Fixpoint dict_lookup {V : Type} (key : string) (d : py_dict V) : option V :=
  match d with
  | [] => None
  | (k, v) :: rest => if k =? key then Some v else dict_lookup key rest
  end.

(** [d.get(key, default)] *)
Definition dict_get {V : Type} (key : string) (default : V) (d : py_dict V) : V :=
  match dict_lookup key d with
  | Some v => v
  | None => default
  end.

(** [d[key]]: raises [KeyError] on a missing key. *)
Definition dict_item {V : Type} (key : string) (d : py_dict V) : py_result V :=
  match dict_lookup key d with
  | Some v => Returns v
  | None => Raises KeyError
  end.

(** [data.get(key, default)] on a parsed JSON value: only a dict has [get]. *)
Definition json_get (key : string) (default : json) (data : json) : py_result json :=
  match data with
  | JObject fields => Returns (dict_get key default fields)
  | _ => Raises AttributeError
  end.

(** [data[key]] on a parsed JSON value, for a string key. *)
Definition json_item (key : string) (data : json) : py_result json :=
  match data with
  | JObject fields => dict_item key fields
  | _ => Raises TypeError
  end.

(** [needle in haystack] on Python strings. *)
Fixpoint contains (needle haystack : string) : bool :=
  if String.prefix needle haystack then true
  else match haystack with
       | EmptyString => false
       | String _ rest => contains needle rest
       end.

(** ** Stateful Python code

    A computation reads and writes a state [S] (its [st.session_state]),
    records the calls it makes to the outside as events [E], and returns or
    raises.  State changes and events made before a raise are kept, as in
    Python. *)

Section Computations.
Context {S E : Type}.

Definition py_comp (A : Type) : Type := S -> py_result A * S * list E.

Definition ret {A : Type} (a : A) : py_comp A := fun st => (Returns a, st, []).

Definition bind {A B : Type} (c : py_comp A) (k : A -> py_comp B) : py_comp B :=
  fun st =>
    match c st with
    | (Returns a, st1, ev1) =>
        match k a st1 with
        | (r, st2, ev2) => (r, st2, (ev1 ++ ev2)%list)
        end
    | (Raises e, st1, ev1) => (Raises e, st1, ev1)
    end.

Definition lift {A : Type} (r : py_result A) : py_comp A := fun st => (r, st, []).
Definition get_state : py_comp S := fun st => (Returns st, st, []).
Definition modify (f : S -> S) : py_comp unit := fun st => (Returns tt, f st, []).
Definition emit (e : E) : py_comp unit := fun st => (Returns tt, st, [e]).

(** [try: c except <class>: handler], the class given by [catches];
    an exception outside the class propagates. *)
Definition try_except {A : Type} (c : py_comp A) (catches : py_exn -> bool)
  (handler : py_exn -> py_comp A) : py_comp A :=
  fun st =>
    match c st with
    | (Returns a, st1, ev1) => (Returns a, st1, ev1)
    | (Raises e, st1, ev1) =>
        if catches e then
          match handler e st1 with
          | (r, st2, ev2) => (r, st2, (ev1 ++ ev2)%list)
          end
        else (Raises e, st1, ev1)
    end.
End Computations.
Arguments py_comp : clear implicits.

(** [except Exception]: every exception of the model. *)
Definition any_exception (e : py_exn) : bool := true.

Declare Scope py_scope.
Delimit Scope py_scope with py.
Notation "x <- c ;; k" := (bind c (fun x => k))
  (at level 61, c at next level, right associativity) : py_scope.
Notation "c ;;; k" := (bind c (fun _ => k))
  (at level 61, right associativity) : py_scope.
Open Scope py_scope.

(** An instant as [datetime.now()] gives it. *)
Definition instant : Type := Z.

(** ** The receiver: [receiver.py] *)

Module Receiver.

(** *** Risk policy *)

Definition high_risk_emotions : list string := ["sadness"; "fear"; "grief"].

(** [emotion in high_risk_emotions] *)
Definition py_in (x : string) (l : list string) : bool :=
  existsb (fun y => y =? x) l.

Definition crisis_message : string :=
  "I hear how much pain you're in, and I want you to know that your life has value. " ++
  "Please reach out to the crisis helpline immediately at 988 - they are available " ++
  "24/7 and want to support you. You don't have to go through this alone.".

Definition supportive_message : string :=
  "Thank you for reaching out. It takes courage to share these feelings. " ++
  "While I'm here to listen, it's important to connect with mental health " ++
  "professionals who can provide the support you need.".

Definition get_response (emotion : string) (score : float) : py_dict string :=
  if py_in emotion high_risk_emotions && (0.5 <? score)%float then
    [("message", crisis_message); ("risk_level", "high")]
  else
    [("message", supportive_message); ("risk_level", "medium")].

(** The two dicts [get_response] can return, by name. *)
Definition high_response : py_dict string :=
  [("message", crisis_message); ("risk_level", "high")].

Definition medium_response : py_dict string :=
  [("message", supportive_message); ("risk_level", "medium")].

(** *** Classifier adapter *)

(** One element of the list the pipeline returns: a dict with [label] and
    [score]. *)
Record prediction : Type := { label : string; score : float }.

(** The loaded pipeline object: called on the message, it returns a list of
    predictions or raises. *)
Definition classifier : Type := json -> py_result (list prediction).

(** A row of [st.session_state.messages]. *)
Record entry : Type := {
  entry_timestamp : instant;
  entry_client_id : json;
  entry_message : json;
  entry_emotion : string;
  entry_score : float;
  entry_response : string
}.

(** A row of [st.session_state.emotion_data]. *)
Record sample : Type := {
  sample_timestamp : instant;
  sample_emotion : string;
  sample_score : float;
  sample_client_id : json
}.

(** [st.session_state] after [init_session_state]. *)
Record session_state : Type := {
  messages : list entry;
  emotion_data : list sample;
  server_running : bool;
  model : option classifier
}.

(** What [init_session_state] builds from an empty session. *)
Definition init_session_state : session_state :=
  {| messages := []; emotion_data := []; server_running := false; model := None |}.

(** [st.session_state] as Streamlit keeps it for a browser session: a key
    is there or not. *)
Record raw_session : Type := {
  raw_messages : option (list entry);
  raw_emotion_data : option (list sample);
  raw_server_running : option bool;
  raw_model : option (option classifier)
}.

(** A session state with no key in it. *)
Definition new_session : raw_session :=
  {| raw_messages := None; raw_emotion_data := None;
     raw_server_running := None; raw_model := None |}.

(** [st.session_state.<key>]: a key that is not there raises
    [AttributeError]. *)
Definition session_attr {A : Type} (key : raw_session -> option A) (raw : raw_session)
  : py_result A :=
  match key raw with
  | Some v => Returns v
  | None => Raises AttributeError
  end.

(** What [st.session_state] is where the handler runs.  [main] starts
    [run_server] in a plain [threading.Thread], and waitress serves each
    request in a worker thread of its own; neither carries the script-run
    context that ties a thread to a browser session.  In such a thread
    Streamlit answers each use of [st.session_state] with a session state
    made on the spot, with no key in it: the keys [init_session_state] set
    in the browser session are not there. *)
Definition handler_session : raw_session := new_session.

(** Calls out of the handler. *)
Inductive event : Type :=
| CallLoadModel                 (* load_model() *)
| CallModel (text : json)       (* st.session_state.model(text) *).

(** The handler's computations.  The state is the session of the dashboard
    page, carried along so that what the handler does to it can be stated;
    the handler's own [st.session_state] is [handler_session]. *)
Definition M (A : Type) : Type := py_comp session_state event A.

(** A value written into, or changed inside, the session state of one use
    of [st.session_state] in the handler's thread: nothing refers to that
    session state afterwards. *)
Definition discard {A : Type} (value : A) : M unit := ret tt.

(** [load_model()] as its caller sees it.  [@st.cache_resource] runs the
    body once per process and hands its result, [None] included, to every
    later call; [pipeline] is the outcome of building the pipeline on that
    one run, [None] being returned when it raised.  What the body logs or
    shows on that run is not recorded. *)
Definition load_model (pipeline : py_result classifier) : M (option classifier) :=
  emit CallLoadModel ;;;
  ret (match pipeline with
       | Returns m => Some m
       | Raises _ => None
       end).

(** [result[0]] *)
Definition first_item {A : Type} (l : list A) : py_result A :=
  match l with
  | x :: _ => Returns x
  | [] => Raises IndexError
  end.

Definition analyze_emotions (pipeline : py_result classifier) (text : json)
  : M (string * float) :=
  try_except
    (handle <- lift (session_attr raw_model handler_session) ;;
     match handle with
     | None => loaded <- load_model pipeline ;; discard loaded
     | Some _ => ret tt
     end ;;;
     handle <- lift (session_attr raw_model handler_session) ;;
     match handle with
     | None => ret ("unknown", 0%float)
     | Some m =>
         emit (CallModel text) ;;;
         result <- lift (m text) ;;
         p <- lift (first_item result) ;;
         ret (label p, score p)
     end)
    any_exception
    (fun _ => ret ("unknown", 0%float)).

(** *** Support handler *)

(** What arrives at [POST /api/support], as far as [request.json] looks at
    it. *)
Inductive request : Type :=
| NotJson                (* the Content-Type is not a JSON one; no body at all is this case *)
| Malformed              (* a JSON Content-Type and a payload json.loads rejects,
                            the empty payload included *)
| Json (data : json)     (* a JSON Content-Type and a payload that parses to [data] *).

(** Flask's [request.json], that is [get_json(force=False, silent=False)]:
    a payload that does not parse goes to [on_json_loading_failed], which
    raises [BadRequest]; so does (since Flask 2.1; [UnsupportedMediaType]
    since 2.3) a Content-Type that is not JSON.  Only [silent=True] turns
    these into [None].  The JSON text [null] parses to [None]. *)
Definition request_json (req : request) : py_result json :=
  match req with
  | NotJson => Raises UnsupportedMediaType
  | Malformed => Raises BadRequest
  | Json data => Returns data
  end.

(** [jsonify(d), status] *)
Definition http_response : Type := json * Z.

Definition jsonify (d : py_dict string) : json :=
  JObject (map (fun kv => (fst kv, JString (snd kv))) d).

Definition receive_message (pipeline : py_result classifier) (req : request)
  (now : instant) : M http_response :=
  try_except
    (data <- lift (request_json req) ;;
     if negb (truthy data) then
       ret (jsonify [("error", "No JSON data received")], 400%Z)
     else
       message <- lift (json_get "message" (JString "") data) ;;
       client_id <- lift (json_get "client_id" (JString "unknown") data) ;;
       if negb (truthy message) then
         ret (jsonify [("error", "Empty message")], 400%Z)
       else
         es <- analyze_emotions pipeline message ;;
         let response := get_response (fst es) (snd es) in
         let timestamp := now in
         response_message <- lift (dict_item "message" response) ;;
         let entry :=
           {| entry_timestamp := timestamp;
              entry_client_id := client_id;
              entry_message := message;
              entry_emotion := fst es;
              entry_score := snd es;
              entry_response := response_message |} in
         rows <- lift (session_attr raw_messages handler_session) ;;
         discard (rows ++ [entry])%list ;;;
         samples <- lift (session_attr raw_emotion_data handler_session) ;;
         discard (samples ++ [{| sample_timestamp := timestamp;
                                 sample_emotion := fst es;
                                 sample_score := snd es;
                                 sample_client_id := client_id |}])%list ;;;
         ret (jsonify response, 200%Z))
    any_exception
    (fun _ => ret (jsonify [("error", "Internal server error")], 500%Z)).

(** The four answers of the endpoint, by name. *)
Definition no_json_response : http_response :=
  (JObject [("error", JString "No JSON data received")], 400%Z).
Definition empty_message_response : http_response :=
  (JObject [("error", JString "Empty message")], 400%Z).
Definition internal_error_response : http_response :=
  (JObject [("error", JString "Internal server error")], 500%Z).
Definition ok_response (answer : py_dict string) : http_response :=
  (jsonify answer, 200%Z).

(** A classifier stub that answers every text with one fixed prediction. *)
Definition stub_classifier (emotion : string) (confidence : float) : classifier :=
  fun _ => Returns [{| label := emotion; score := confidence |}].

(** Request bodies used in the examples. *)
Definition hopeless_request : request :=
  Json (JObject [("message", JString "I feel hopeless"); ("client_id", JString "c1")]).
Definition fine_day_request : request :=
  Json (JObject [("message", JString "I had a fine day")]).

(** The handler serving a sequence of requests one after the other, each at
    its own instant, beside the page's session [st]. *)
Fixpoint handle_requests (pipeline : py_result classifier) (reqs : list (request * instant))
  (st : session_state) : list http_response * session_state :=
  match reqs with
  | [] => ([], st)
  | (req, now) :: rest =>
      match receive_message pipeline req now st with
      | (Returns resp, st1, _) =>
          let '(resps, st2) := handle_requests pipeline rest st1 in (resp :: resps, st2)
      | (Raises _, st1, _) => handle_requests pipeline rest st1
      end
  end.

End Receiver.

(** ** The sender: [sender.py] *)

Module Sender.

(** A row of the chat transcript [st.session_state.messages]: the
    [risk_level] key is present on assistant turns only. *)
Record turn : Type := {
  turn_timestamp : string;
  role : string;
  content : json;
  risk_level : option json
}.

Record session_state : Type := {
  messages : list turn;
  client_id : string;
  server_url : option string
}.

Definition append_message (t : turn) (st : session_state) : session_state :=
  {| messages := messages st ++ [t]; client_id := client_id st;
     server_url := server_url st |}.

(** What [requests.post] hands back: the status code, and what
    [response.json()] will give ([requests.exceptions.JSONDecodeError], a
    [RequestException], when the body is not JSON). *)
Record reply : Type := {
  status_code : Z;
  reply_json : py_result json
}.

(** The network: the outcome of [requests.post(url, json=data)]. *)
Definition network : Type := string -> json -> py_result reply.

Inductive event : Type :=
| StError (msg : string)                  (* st.error(msg) *)
| HttpPost (url : string) (data : json)   (* requests.post(url, json=data) *).

Definition M (A : Type) : Type := py_comp session_state event A.

(** [bool(st.session_state.server_url)] *)
Definition url_configured (url : option string) : bool :=
  match url with
  | None => false
  | Some u => negb (u =? "")
  end.

(** [except requests.exceptions.RequestException] *)
Definition is_request_exception (e : py_exn) : bool :=
  match e with
  | RequestException _ => true
  | _ => false
  end.

Definition exn_text (e : py_exn) : string :=
  match e with
  | RequestException detail => detail
  | _ => ""
  end.

(** [str(n)] for an [int]. *)
Definition str_int (n : Z) : string := DecimalString.NilZero.string_of_int (Z.to_int n).

(** [send_message(message)]; the result is Python's [None], [True] or
    [False]. *)
Definition send_message (post : network) (now : string) (message : string)
  : M (option bool) :=
  st <- get_state ;;
  if negb (url_configured (server_url st)) then
    emit (StError "Server URL not configured") ;;;
    ret None
  else
    try_except
      (let data := JObject [("message", JString message);
                            ("client_id", JString (client_id st))] in
       let url := (match server_url st with Some u => u | None => "None" end)
                  ++ "/api/support" in
       emit (HttpPost url data) ;;;
       response <- lift (post url data) ;;
       if (status_code response =? 200)%Z then
         response_data <- lift (reply_json response) ;;
         let timestamp := now in
         modify (append_message
                   {| turn_timestamp := timestamp; role := "user";
                      content := JString message; risk_level := None |}) ;;;
         reply_message <- lift (json_item "message" response_data) ;;
         reply_risk <- lift (json_item "risk_level" response_data) ;;
         modify (append_message
                   {| turn_timestamp := timestamp; role := "assistant";
                      content := reply_message; risk_level := Some reply_risk |}) ;;;
         ret (Some true)
       else
         emit (StError ("Error: Server returned status " ++ str_int (status_code response))) ;;;
         ret (Some false))
      is_request_exception
      (fun e =>
         emit (StError ("Connection error: " ++ exn_text e)) ;;;
         ret (Some false)).

(** The two rows a successful send appends. *)
Definition user_turn (now : string) (message : string) : turn :=
  {| turn_timestamp := now; role := "user"; content := JString message;
     risk_level := None |}.

Definition assistant_turn (now : string) (text risk : json) : turn :=
  {| turn_timestamp := now; role := "assistant"; content := text;
     risk_level := Some risk |}.

(** The body and the address of the POST. *)
Definition request_data (message : string) (st : session_state) : json :=
  JObject [("message", JString message); ("client_id", JString (client_id st))].

Definition support_url (base : string) : string := base ++ "/api/support".

(** Networks used in the examples: a server that always answers as given,
    and one that cannot be reached. *)
Definition answering (code : Z) (body : json) : network :=
  fun _ _ => Returns {| status_code := code; reply_json := Returns body |}.

Definition unreachable (detail : string) : network :=
  fun _ _ => Raises (RequestException detail).


Definition connected_client : session_state :=
  {| messages := []; client_id := "c1"; server_url := Some "http://localhost:5000" |}.

End Sender.

(** ** The two programs connected *)

Module Wire.

(** The receiver as the repository runs it (the handler in a worker thread
    of waitress, beside the page's session [st]), as the sender's network:
    the sender's JSON body is what [request.json] parses, and the handler's
    answer is what [requests.post] hands back. *)
Definition loopback (pipeline : py_result Receiver.classifier) (now : instant)
  (st : Receiver.session_state) : Sender.network :=
  fun _ data =>
    match fst (fst (Receiver.receive_message pipeline (Receiver.Json data) now st)) with
    | Returns answer =>
        Returns {| Sender.status_code := snd answer;
                   Sender.reply_json := Returns (fst answer) |}
    | Raises e => Raises e
    end.

End Wire.

(** ** The receiver's dashboard: [main] of [receiver.py] *)

Module Dashboard.
Import Receiver.

(** [init_session_state()]: each of the four keys is set to its default
    when it is not in the session; the result has all four. *)
Definition init_session_state (raw : raw_session) : session_state :=
  {| messages := match raw_messages raw with Some rows => rows | None => [] end;
     emotion_data := match raw_emotion_data raw with Some rows => rows | None => [] end;
     server_running := match raw_server_running raw with Some b => b | None => false end;
     model := match raw_model raw with Some m => m | None => None end |}.

(** The session a run leaves behind for the next one. *)
Definition stored (st : session_state) : raw_session :=
  {| raw_messages := Some (messages st);
     raw_emotion_data := Some (emotion_data st);
     raw_server_running := Some (server_running st);
     raw_model := Some (model st) |}.

Definition set_server_running (b : bool) (st : session_state) : session_state :=
  {| messages := messages st; emotion_data := emotion_data st;
     server_running := b; model := model st |}.

(** What the widgets of one run return: the host and port fields, and
    whether "Start Server" was clicked (asked only when the button is
    drawn). *)
Record widgets : Type := {
  server_host : string;
  server_port : Z;
  start_pressed : bool
}.

(** The calls [main] makes, in order. *)
Inductive ui : Type :=
| SetPageConfig (page_title page_icon layout : string)
| Title (text : string)
| Columns (n : Z)
| TextInput (label value : string)
| NumberInput (label : string) (min_value max_value value : Z)
| Button (label : string)
| StartThread (host : string) (port : Z)
    (* threading.Thread(target=run_server, args=(host, port)), daemon, started *)
| Info (text : string)
| Subheader (text : string)
| Dataframe (rows : list entry)        (* st.dataframe(pd.DataFrame(rows), ...) *)
| AltairChart (data : list sample)     (* st.altair_chart(create_emotion_chart(pd.DataFrame(data)), ...) *)
| SidebarHeader (text : string)
| SidebarWrite (text : string)
| SidebarInfo (text : string).

Definition page_icon : string := "üè•".
Definition page_heading : string := "Support System Server üè•".
Definition online_status : string := "üü¢ Online".
Definition offline_status : string := "üî¥ Offline".
Definition newline : string := String (Ascii.ascii_of_nat 10) "".

(** The address the sidebar shows: the f-string
    "http://{server_host}:{server_port}/api/support". *)
Definition shown_url (host : string) (port : Z) : string :=
  "http://" ++ host ++ ":" ++ Sender.str_int port ++ "/api/support".

(** [bool(rows)] for a list. *)
Definition nonempty {A : Type} (rows : list A) : bool :=
  match rows with [] => false | _ :: _ => true end.

(** [main()], run on the session as the previous run (or nobody) left it. *)
Definition main (w : widgets) (raw : raw_session)
  : py_result unit * session_state * list ui :=
  (emit (SetPageConfig "Support System Server" page_icon "wide") ;;;
   emit (Title page_heading) ;;;
   emit (Columns 2) ;;;
   emit (TextInput "Host" "localhost") ;;;
   emit (NumberInput "Port" 1024 65535 5000) ;;;
   st <- get_state ;;
   (if negb (server_running st) then
      emit (Button "Start Server") ;;;
      if start_pressed w then
        modify (set_server_running true) ;;;
        emit (StartThread (server_host w) (server_port w))
      else ret tt
    else emit (Info "Server is running")) ;;;
   emit (Subheader "Message History") ;;;
   st <- get_state ;;
   (if nonempty (messages st) then emit (Dataframe (messages st)) else ret tt) ;;;
   emit (Subheader "Emotional Pattern Analysis") ;;;
   st <- get_state ;;
   (if nonempty (emotion_data st) then emit (AltairChart (emotion_data st))
    else ret tt) ;;;
   emit (SidebarHeader "Server Status") ;;;
   st <- get_state ;;
   let status := if server_running st then online_status else offline_status in
   emit (SidebarWrite ("Status: " ++ status)) ;;;
   st <- get_state ;;
   if server_running st then
     emit (SidebarInfo ("Server is running at:" ++ newline ++
                        shown_url (server_host w) (server_port w)))
   else ret tt)
    (init_session_state raw).

(** What happens to the receiver process, one thing after the other: the
    script is run again (a widget was touched), or a request is handled. *)
Inductive step : Type :=
| Rerun (w : widgets)
| Post (req : request) (now : instant).

Inductive output : Type :=
| Shown (u : ui)
| Called (e : event)
| Answered (resp : http_response).

(** The receiver process going through a list of steps.  [st] is the
    session of the dashboard page: a rerun of [main] reads and writes it; a
    request is handled in a worker thread beside it, through
    [receive_message], whose own [st.session_state] is [handler_session]. *)
Fixpoint run_app (pipeline : py_result classifier) (steps : list step)
  (st : session_state) : session_state * list output :=
  match steps with
  | [] => (st, [])
  | Rerun w :: rest =>
      match main w (stored st) with
      | (_, st1, shown) =>
          let '(st2, out) := run_app pipeline rest st1 in
          (st2, (map Shown shown ++ out)%list)
      end
  | Post req now :: rest =>
      match receive_message pipeline req now st with
      | (r, st1, calls) =>
          let '(st2, out) := run_app pipeline rest st1 in
          (st2, (map Called calls
                 ++ match r with Returns resp => [Answered resp] | Raises _ => [] end
                 ++ out)%list)
      end
  end.

(** The threads started, among the outputs. *)
Definition is_thread_start (o : output) : bool :=
  match o with
  | Shown (StartThread _ _) => true
  | _ => false
  end.

(** The requests answered 200, among the outputs. *)
Definition is_accepted_answer (o : output) : bool :=
  match o with
  | Answered resp => (snd resp =? 200)%Z
  | _ => false
  end.

End Dashboard.

(** ** The sender's page: the script of [sender.py] *)

(** A computation run inside another whose events are of a wider type. *)
Definition with_events {S E E' A : Type} (f : E -> E') (c : py_comp S E A)
  : py_comp S E' A :=
  fun st => match c st with (r, st1, ev) => (r, st1, map f ev) end.

(** Several calls in a row (a [for] loop that only draws). *)
Definition emit_all {S E : Type} (evs : list E) : py_comp S E unit :=
  fun st => (Returns tt, st, evs).

Module Chat.
Import Sender.

(** [st.session_state] between runs of the script. *)
Record raw_session : Type := {
  raw_messages : option (list turn);
  raw_client_id : option string;
  raw_server_url : option (option string)
}.

Definition new_session : raw_session :=
  {| raw_messages := None; raw_client_id := None; raw_server_url := None |}.

(** The three [if ... not in st.session_state] at the top of the script;
    [fresh_uuid] is what [str(uuid.uuid4())] would give. *)
Definition init_session (fresh_uuid : string) (raw : raw_session) : session_state :=
  {| messages := match raw_messages raw with Some rows => rows | None => [] end;
     client_id := match raw_client_id raw with Some id => id | None => fresh_uuid end;
     server_url := match raw_server_url raw with Some url => url | None => None end |}.

Definition stored (st : session_state) : raw_session :=
  {| raw_messages := Some (messages st);
     raw_client_id := Some (client_id st);
     raw_server_url := Some (server_url st) |}.

Definition set_server_url (url : option string) (st : session_state) : session_state :=
  {| messages := messages st; client_id := client_id st; server_url := url |}.

Definition EMERGENCY_CONTACTS : py_dict string :=
  [("National Suicide Prevention Lifeline", "988");
   ("Crisis Text Line", "Text HOME to 741741");
   ("Emergency Services", "911")].

(** What one run of the script gets from outside: a fresh UUID, the sidebar
    fields, whether "Connect" was clicked, what the chat input returns, the
    formatted time, and the network. *)
Record inputs : Type := {
  fresh_uuid : string;
  server_host : string;
  server_port : Z;
  connect_pressed : bool;
  prompt : option string;
  clock : string;
  post : network
}.

(** The calls the script makes, in order. *)
Inductive ui : Type :=
| SetPageConfig (page_title page_icon layout : string)
| SidebarHeader (text : string)
| SidebarTextInput (label value : string)
| SidebarNumberInput (label : string) (min_value max_value value : Z)
| SidebarButton (label : string)
| SidebarMarkdown (text : string)
| SidebarInfo (text : string)
| Title (text : string)
| Write (text : string)
| ChatMessage (name : string)
| Markdown (body : json)
| Warning (text : string)
| ChatInput (placeholder : string)
| Info (text : string)
| MarkdownText (text : string) (unsafe_allow_html : bool)
| Sent (e : event)               (* a call made inside send_message *).

Definition page_icon : string := "💚".
Definition contacts_header : string := "Emergency Contacts 🆘".
Definition page_heading : string := "Mental Health Support System 💚".
Definition connected_status : string := "🟢 Connected".
Definition not_connected_status : string := "🔴 Not Connected".
Definition warning_text : string :=
  "Please consider reaching out to emergency services or a crisis helpline.".
Definition footer : string := "
    <div style='text-align: center'>
        <p>Remember: You're not alone. Help is always available.</p>
        <p>This is a supportive space, but not a substitute for professional help.</p>
    </div>
    ".

(** [message.get("risk_level") == "high"] *)
Definition is_high (risk : option json) : bool :=
  match risk with
  | Some (JString s) => s =? "high"
  | _ => false
  end.

(** The body of the loop over the transcript. *)
Definition render_turn (t : turn) : list ui :=
  ChatMessage (role t) :: Markdown (content t) ::
  (if (role t =? "assistant") && is_high (risk_level t) then [Warning warning_text]
   else []).

Definition render_transcript (transcript : list turn) : list ui :=
  flat_map render_turn transcript.

(** The f-string "http://{server_host}:{server_port}". *)
Definition base_url (host : string) (port : Z) : string :=
  "http://" ++ host ++ ":" ++ str_int port.

(** One run of the script on the session as the previous run left it.  A
    raise inside [send_message] ends the run there. *)
Definition script (i : inputs) (raw : raw_session)
  : py_result unit * session_state * list ui :=
  (emit (SetPageConfig "Support System Client" page_icon "wide") ;;;
   emit (SidebarHeader "Connection Settings") ;;;
   emit (SidebarTextInput "Server Host" "localhost") ;;;
   emit (SidebarNumberInput "Server Port" 1024 65535 5000) ;;;
   emit (SidebarButton "Connect") ;;;
   (if connect_pressed i then
      modify (set_server_url (Some (base_url (server_host i) (server_port i))))
    else ret tt) ;;;
   emit (SidebarMarkdown "---") ;;;
   emit (SidebarHeader contacts_header) ;;;
   emit_all (map (fun contact => SidebarInfo (fst contact ++ ": " ++ snd contact))
               EMERGENCY_CONTACTS) ;;;
   emit (Title page_heading) ;;;
   st <- get_state ;;
   let status := if url_configured (server_url st) then connected_status
                 else not_connected_status in
   emit (Write ("Status: " ++ status)) ;;;
   st <- get_state ;;
   emit_all (render_transcript (messages st)) ;;;
   st <- get_state ;;
   (if url_configured (server_url st) then
      emit (ChatInput "Share your thoughts...") ;;;
      match prompt i with
      | Some text =>
          if negb (text =? "") then
            with_events Sent (send_message (post i) (clock i) text) ;;; ret tt
          else ret tt
      | None => ret tt
      end
    else emit (Info "Please configure the server connection to start chatting.")) ;;;
   emit (MarkdownText "---" false) ;;;
   emit (MarkdownText footer true))
    (init_session (fresh_uuid i) raw).

(** The script run again and again on one browser session. *)
Fixpoint run_chat (runs : list inputs) (raw : raw_session)
  : raw_session * list ui :=
  match runs with
  | [] => (raw, [])
  | i :: rest =>
      match script i raw with
      | (_, st1, shown) =>
          let '(raw2, out) := run_chat rest (stored st1) in
          (raw2, (shown ++ out)%list)
      end
  end.

(** The session once the sidebar is through: "Connect" has set the URL or
    not. *)
Definition connect (i : inputs) (st : session_state) : session_state :=
  if connect_pressed i then
    set_server_url (Some (base_url (server_host i) (server_port i))) st
  else st.

(** What a run draws before the chat input, on the session [st] the sidebar
    left, and what it draws after it. *)
Definition page_top (st : session_state) : list ui :=
  ([SetPageConfig "Support System Client" page_icon "wide";
    SidebarHeader "Connection Settings";
    SidebarTextInput "Server Host" "localhost";
    SidebarNumberInput "Server Port" 1024 65535 5000;
    SidebarButton "Connect";
    SidebarMarkdown "---";
    SidebarHeader contacts_header;
    SidebarInfo "National Suicide Prevention Lifeline: 988";
    SidebarInfo "Crisis Text Line: Text HOME to 741741";
    SidebarInfo "Emergency Services: 911";
    Title page_heading;
    Write ("Status: " ++ (if url_configured (server_url st) then connected_status
                          else not_connected_status))]
   ++ render_transcript (messages st))%list.

Definition page_bottom : list ui :=
  [MarkdownText "---" false; MarkdownText footer true].

(** The address [send_message] posts to. *)
Definition target (st : session_state) : string :=
  match server_url st with Some u => u | None => "None" end ++ "/api/support".

(** A turn that draws the warning. *)
Definition warns (t : turn) : bool :=
  (role t =? "assistant") && is_high (risk_level t).

Definition is_http_post (e : event) : bool :=
  match e with
  | HttpPost _ _ => true
  | StError _ => false
  end.

(** Runs used in the examples: a text typed without "Connect", and
    "Connect" clicked with a text submitted. *)
Definition typing_run : inputs :=
  {| fresh_uuid := "0b0e6e0c-7f55-4c0e-9d2b-0c1f4a1d2e3f";
     server_host := "localhost"; server_port := 5000;
     connect_pressed := false; prompt := Some "hello";
     clock := "2024-01-01 10:00:00";
     post := unreachable "Connection refused" |}.

Definition connecting_run : inputs :=
  {| fresh_uuid := "0b0e6e0c-7f55-4c0e-9d2b-0c1f4a1d2e3f";
     server_host := "localhost"; server_port := 5000;
     connect_pressed := true; prompt := Some "hello";
     clock := "2024-01-01 10:00:00";
     post := unreachable "Connection refused" |}.

Definition is_warning (u : ui) : bool :=
  match u with
  | Warning _ => true
  | _ => false
  end.

Definition is_post (u : ui) : bool :=
  match u with
  | Sent (HttpPost _ _) => true
  | _ => false
  end.

(** The [client_id] a POST carries in its body, if it is a POST. *)
Definition posted_client_id (u : ui) : option json :=
  match u with
  | Sent (HttpPost _ (JObject fields)) => dict_lookup "client_id" fields
  | _ => None
  end.

End Chat.

(** * Properties *)

(** ** Comparisons of binary64 scores *)

Lemma SFleb_not_SFltb (a b : spec_float) :
  SFleb a b = true -> SFltb b a = false.
Proof.
  unfold SFleb, SFltb.
  destruct a as [sa|sa| |sa ma ea], b as [sb|sb| |sb mb eb]; simpl;
    try destruct sa; try destruct sb; simpl; try congruence.
  all: rewrite (Z.compare_antisym ea eb); destruct (ea ?= eb)%Z; simpl; try congruence.
  all: change PosDef.Pos.compare_cont with Pos.compare_cont;
    change (Pos.compare_cont Eq mb ma) with (Pos.compare_cont (CompOpp Eq) mb ma);
    rewrite <- (Pos.compare_cont_antisym ma mb Eq);
    destruct (Pos.compare_cont Eq ma mb); simpl; congruence.
Qed.

(** [x <= y] excludes [y < x] (both are false on a NaN). *)
Lemma leb_not_ltb (x y : float) :
  (x <=? y)%float = true -> (y <? x)%float = false.
Proof. rewrite leb_spec, ltb_spec. apply SFleb_not_SFltb. Qed.

(** ** The risk policy *)

Module RiskPolicy.
Import Receiver.

(** [py_in] is list membership. *)
Lemma py_in_In (x : string) (l : list string) : py_in x l = true <-> In x l.
Proof.
  unfold py_in. rewrite existsb_exists. split.
  - intros [y [Hy Heq]]. apply String.eqb_eq in Heq. now subst.
  - intros H. exists x. split; [exact H | apply String.eqb_refl].
Qed.

Lemma py_in_not_In (x : string) (l : list string) : ~ In x l -> py_in x l = false.
Proof.
  intros H. destruct (py_in x l) eqn:E; [|reflexivity].
  apply py_in_In in E. contradiction.
Qed.

Lemma crisis_message_mentions_988 : contains "988" crisis_message = true.
Proof. vm_compute. reflexivity. Qed.

(** C1: an emotion among sadness, fear and grief with a score strictly above
    0.5 gets risk level "high" and the crisis-referral message, which names
    the 988 helpline. *)
Theorem get_response_high (emotion : string) (score : float) :
  In emotion ["sadness"; "fear"; "grief"] ->
  (0.5 <? score)%float = true ->
  get_response emotion score = high_response /\
  dict_lookup "risk_level" (get_response emotion score) = Some "high" /\
  dict_lookup "message" (get_response emotion score) = Some crisis_message /\
  contains "988" crisis_message = true.
Proof.
  intros Hin Hgt.
  assert (E : get_response emotion score = high_response).
  { unfold get_response.
    rewrite (proj2 (py_in_In emotion high_risk_emotions) Hin), Hgt.
    reflexivity. }
  rewrite E. split; [reflexivity|]. split; [reflexivity|]. split; [reflexivity|].
  apply crisis_message_mentions_988.
Qed.

Lemma get_response_high_witness :
  get_response "grief" 0.75%float = high_response /\
  dict_lookup "risk_level" (get_response "grief" 0.75%float) = Some "high" /\
  dict_lookup "message" (get_response "grief" 0.75%float) = Some crisis_message /\
  contains "988" crisis_message = true.
Proof.
  apply (get_response_high "grief" 0.75%float).
  - simpl. auto.
  - vm_compute. reflexivity.
Defined.

(** C2: whenever the high-risk condition fails (the emotion is not one of
    sadness, fear, grief, or the score is not strictly above 0.5) the answer
    is risk level "medium" with the generic supportive message. *)
Theorem get_response_medium (emotion : string) (score : float) :
  ~ (In emotion ["sadness"; "fear"; "grief"] /\ (0.5 <? score)%float = true) ->
  get_response emotion score = medium_response /\
  dict_lookup "risk_level" (get_response emotion score) = Some "medium" /\
  dict_lookup "message" (get_response emotion score) = Some supportive_message.
Proof.
  intros Hfail.
  assert (E : get_response emotion score = medium_response).
  { unfold get_response.
    destruct (py_in emotion high_risk_emotions) eqn:Hin; [|reflexivity].
    destruct (0.5 <? score)%float eqn:Hgt; [|reflexivity].
    exfalso. apply Hfail. split; [|reflexivity].
    apply py_in_In. exact Hin. }
  rewrite E. repeat split.
Qed.

Lemma get_response_medium_witness :
  get_response "sadness" 0.5%float = medium_response /\
  dict_lookup "risk_level" (get_response "sadness" 0.5%float) = Some "medium" /\
  dict_lookup "message" (get_response "sadness" 0.5%float) = Some supportive_message.
Proof.
  apply (get_response_medium "sadness" 0.5%float).
  intros [_ H]. vm_compute in H. discriminate H.
Defined.

(** The cases the policy's description lists, one by one. *)
Lemma not_high_risk_emotion (emotion : string) (score : float) :
  ~ In emotion ["sadness"; "fear"; "grief"] ->
  get_response emotion score = medium_response.
Proof.
  intros H. unfold get_response.
  rewrite (py_in_not_In emotion high_risk_emotions H). reflexivity.
Qed.

Lemma score_at_most_half (emotion : string) (score : float) :
  (score <=? 0.5)%float = true ->
  get_response emotion score = medium_response.
Proof.
  intros H. unfold get_response.
  rewrite (leb_not_ltb _ _ H), andb_false_r. reflexivity.
Qed.

Lemma score_exactly_half (emotion : string) :
  get_response emotion 0.5%float = medium_response.
Proof. apply score_at_most_half. vm_compute. reflexivity. Qed.

Lemma score_nan (emotion : string) :
  get_response emotion nan = medium_response.
Proof. unfold get_response. rewrite andb_false_r. reflexivity. Qed.

Example unknown_emotion : get_response "unknown" 0%float = medium_response.
Proof. reflexivity. Qed.

Example empty_emotion : get_response "" 0.75%float = medium_response.
Proof. reflexivity. Qed.

(** The match is case-sensitive. *)
Example capitalised_emotion : get_response "Sadness" 0.75%float = medium_response.
Proof. reflexivity. Qed.

End RiskPolicy.

(** ** The classifier adapter and the support handler *)

Module Handler.
Import Receiver.

Section WithPipeline.
Variable pipeline : py_result classifier.

(** In the handler's thread the first use of [st.session_state.model]
    raises inside the [try]: the adapter answers the sentinel, calls neither
    [load_model] nor a classifier, and leaves the page's session alone. *)
Lemma analyze_emotions_run (text : json) (st : session_state) :
  analyze_emotions pipeline text st = (Returns ("unknown", 0%float), st, []).
Proof. reflexivity. Qed.

(** Every answer of the policy has a message. *)
Lemma get_response_message (emotion : string) (score : float) :
  exists text,
    dict_item "message" (get_response emotion score) = Returns text /\
    dict_lookup "message" (get_response emotion score) = Some text.
Proof.
  unfold get_response.
  destruct (py_in emotion high_risk_emotions && (0.5 <? score)%float);
    eexists; split; reflexivity.
Qed.

Ltac run_handler :=
  unfold receive_message, try_except, bind, lift, ret, modify, any_exception;
  simpl.

(** The five paths through [receive_message]. *)

Lemma receive_message_no_parse (req : request) (now : instant) (st : session_state) :
  (exists e, request_json req = Raises e) ->
  receive_message pipeline req now st = (Returns internal_error_response, st, []).
Proof. intros [e He]. run_handler. rewrite He. reflexivity. Qed.

Lemma receive_message_falsy_body (data : json) (now : instant) (st : session_state) :
  truthy data = false ->
  receive_message pipeline (Json data) now st = (Returns no_json_response, st, []).
Proof. intros H. run_handler. rewrite H. reflexivity. Qed.

Lemma receive_message_not_a_dict (data : json) (now : instant) (st : session_state) :
  truthy data = true ->
  (forall fields, data <> JObject fields) ->
  receive_message pipeline (Json data) now st = (Returns internal_error_response, st, []).
Proof.
  intros H Hno. run_handler. rewrite H.
  destruct data; try reflexivity. now destruct (Hno fields).
Qed.

Lemma receive_message_falsy_message (fields : py_dict json) (now : instant)
  (st : session_state) :
  fields <> [] ->
  truthy (dict_get "message" (JString "") fields) = false ->
  receive_message pipeline (Json (JObject fields)) now st
  = (Returns empty_message_response, st, []).
Proof.
  intros Hne H. run_handler.
  destruct fields as [|kv rest]; [contradiction|]. simpl.
  rewrite H. reflexivity.
Qed.

(** A body that passes both checks: the adapter answers the sentinel, the
    policy answers, the entry is built, and [st.session_state.messages]
    raises [AttributeError] inside the [try]. *)
Lemma receive_message_valid (fields : py_dict json) (now : instant)
  (st : session_state) :
  truthy (dict_get "message" (JString "") fields) = true ->
  receive_message pipeline (Json (JObject fields)) now st
  = (Returns internal_error_response, st, []).
Proof.
  intros H. run_handler.
  destruct fields as [|kv rest]; [discriminate H|]. simpl.
  rewrite H. reflexivity.
Qed.

(** Every request is answered with one of the three error answers, and
    nothing else happens. *)
Lemma receive_message_step (req : request) (now : instant) (st : session_state) :
  exists resp,
    receive_message pipeline req now st = (Returns resp, st, []) /\
    (resp = no_json_response \/ resp = empty_message_response \/
     resp = internal_error_response).
Proof.
  destruct req as [| |data].
  - eexists. split; [apply receive_message_no_parse; simpl; eauto|]. auto.
  - eexists. split; [apply receive_message_no_parse; simpl; eauto|]. auto.
  - destruct (truthy data) eqn:Hdata.
    2:{ eexists. split; [apply receive_message_falsy_body; exact Hdata|]. auto. }
    assert (Hcases : (exists fields, data = JObject fields) \/
                     (forall fields, data <> JObject fields)).
    { destruct data; try (right; intros ? ?; discriminate). left. eauto. }
    destruct Hcases as [[fields ->]|Hno].
    2:{ eexists. split; [apply receive_message_not_a_dict; assumption|]. auto. }
    destruct (truthy (dict_get "message" (JString "") fields)) eqn:Hmsg.
    + eexists. split; [apply receive_message_valid; exact Hmsg|]. auto.
    + eexists. split.
      * apply receive_message_falsy_message; [|exact Hmsg].
        destruct fields; [discriminate Hdata|discriminate].
      * auto.
Qed.

(** X2: the handler answers every request, with status 200, 400 or 500; no
    exception leaves it. *)
Theorem receive_message_total (req : request) (now : instant) (st : session_state) :
  exists resp st1 ev,
    receive_message pipeline req now st = (Returns resp, st1, ev) /\
    (snd resp = 200%Z \/ snd resp = 400%Z \/ snd resp = 500%Z).
Proof.
  destruct (receive_message_step req now st) as (resp & Hrun & Hcases).
  exists resp, st, []. split; [exact Hrun|].
  destruct Hcases as [->|[->| ->]]; simpl; auto.
Qed.

(** *** The session log *)

Lemma handle_requests_cons (req : request) (now : instant) (rest : list (request * instant))
  (st st1 : session_state) (resp : http_response) (ev : list event) :
  receive_message pipeline req now st = (Returns resp, st1, ev) ->
  handle_requests pipeline ((req, now) :: rest) st
  = (resp :: fst (handle_requests pipeline rest st1),
     snd (handle_requests pipeline rest st1)).
Proof.
  intros H. simpl. rewrite H. destruct (handle_requests pipeline rest st1). reflexivity.
Qed.

(** C6, as the code has it: the handler never writes the session log.  A
    request that passes validation is not accepted: the first append,
    [st.session_state.messages.append(entry)], raises in the handler's
    thread and the answer is 500.  So whatever the requests, both logs of
    the page's session stay as they were, and no answer is a 200. *)
Theorem session_log_never_written (reqs : list (request * instant)) (st : session_state) :
  snd (handle_requests pipeline reqs st) = st /\
  length (fst (handle_requests pipeline reqs st)) = length reqs /\
  Forall (fun resp => snd resp = 400%Z \/ snd resp = 500%Z)
    (fst (handle_requests pipeline reqs st)) /\
  handle_requests pipeline [(hopeless_request, 10%Z)] init_session_state
  = ([internal_error_response], init_session_state).
Proof.
  split; [|split; [|split]].
  - induction reqs as [|[req now] rest IH]; [reflexivity|].
    destruct (receive_message_step req now st) as (resp & Hrun & _).
    rewrite (handle_requests_cons _ _ _ _ _ _ _ Hrun). exact IH.
  - induction reqs as [|[req now] rest IH]; [reflexivity|].
    destruct (receive_message_step req now st) as (resp & Hrun & _).
    rewrite (handle_requests_cons _ _ _ _ _ _ _ Hrun). simpl. rewrite IH. reflexivity.
  - induction reqs as [|[req now] rest IH]; [constructor|].
    destruct (receive_message_step req now st) as (resp & Hrun & Hcases).
    rewrite (handle_requests_cons _ _ _ _ _ _ _ Hrun). constructor; [|exact IH].
    destruct Hcases as [->|[->| ->]]; simpl; auto.
  - reflexivity.
Qed.

(** C7: a request answered with status 400 leaves the session state as it
    was, both logs included, and makes no call to the model loader or the
    classifier. *)
Theorem rejected_request_changes_nothing (req : request) (now : instant)
  (st st1 : session_state) (resp : http_response) (ev : list event) :
  receive_message pipeline req now st = (Returns resp, st1, ev) ->
  snd resp = 400%Z ->
  st1 = st /\ ev = [] /\
  messages st1 = messages st /\ emotion_data st1 = emotion_data st.
Proof.
  intros Hrun Hstatus.
  destruct (receive_message_step req now st) as (resp' & Hrun' & _).
  rewrite Hrun' in Hrun. inversion Hrun; subst. auto.
Qed.

(** The same holds of every answer other than 200. *)
Lemma unaccepted_request_changes_nothing (req : request) (now : instant)
  (st st1 : session_state) (resp : http_response) (ev : list event) :
  receive_message pipeline req now st = (Returns resp, st1, ev) ->
  snd resp <> 200%Z ->
  st1 = st /\ ev = [].
Proof.
  intros Hrun Hstatus.
  destruct (receive_message_step req now st) as (resp' & Hrun' & _).
  rewrite Hrun' in Hrun. inversion Hrun; subst. auto.
Qed.

(** C3, as the code has it: whatever becomes of the classifier,
    [analyze_emotions] returns ("unknown", 0.0) and does not raise; but a
    request with a truthy message is not answered 200 with the medium-risk
    response: the append to the session log raises in the handler's thread
    and the answer is 500 "Internal server error". *)
Theorem valid_request_internal_error (fields : py_dict json) (now : instant)
  (st : session_state) :
  truthy (dict_get "message" (JString "") fields) = true ->
  fst (fst (analyze_emotions pipeline (dict_get "message" (JString "") fields) st))
  = Returns ("unknown", 0%float) /\
  receive_message pipeline (Json (JObject fields)) now st
  = (Returns internal_error_response, st, []) /\
  internal_error_response <> ok_response medium_response.
Proof.
  intros Hmsg. split; [reflexivity|]. split.
  - apply receive_message_valid. exact Hmsg.
  - discriminate.
Qed.

(** C4, as the code has it: a body that does not parse makes [request.json]
    raise inside the [try], and the blanket [except] answers 500 "Internal
    server error", not 400 "No JSON data received". *)
Theorem malformed_body_internal_error (now : instant) (st : session_state) :
  receive_message pipeline Malformed now st
  = (Returns internal_error_response, st, []) /\
  receive_message pipeline NotJson now st
  = (Returns internal_error_response, st, []) /\
  internal_error_response <> no_json_response.
Proof.
  split; [|split].
  - apply receive_message_no_parse. simpl. eauto.
  - apply receive_message_no_parse. simpl. eauto.
  - discriminate.
Qed.

(** Missing or falsy [message], in the words of the validation rule. *)
Lemma message_missing_or_falsy (fields : py_dict json) :
  truthy (dict_get "message" (JString "") fields) = false <->
  (dict_lookup "message" fields = None \/
   exists v, dict_lookup "message" fields = Some v /\ truthy v = false).
Proof.
  unfold dict_get. destruct (dict_lookup "message" fields) as [v|]; split.
  - intros H. right. eauto.
  - intros [H|(v' & [= ->] & H)]; [discriminate H|exact H].
  - intros _. left. reflexivity.
  - intros _. reflexivity.
Qed.

(** C5, amended: a JSON body that is a non-empty object whose [message] is
    absent or the empty string is answered 400 "Empty message", and nothing
    else happens. *)
Theorem absent_or_empty_message (fields : py_dict json) (now : instant)
  (st : session_state) :
  fields <> [] ->
  dict_lookup "message" fields = None \/
  dict_lookup "message" fields = Some (JString "") ->
  receive_message pipeline (Json (JObject fields)) now st
  = (Returns empty_message_response, st, []).
Proof.
  intros Hne H. apply receive_message_falsy_message; [exact Hne|].
  apply message_missing_or_falsy.
  destruct H as [H|H]; [left; exact H|right; eauto].
Qed.

(** C10: the order of validation.  The answer is 400 "No JSON data received"
    exactly when [request.json] gives a falsy value, the empty object {}
    among them; it is 400 "Empty message" exactly when it gives a truthy
    object whose [message] is missing or falsy.  So {} is answered "No JSON
    data received". *)
Theorem validation_order (req : request) (now : instant) (st : session_state) :
  (fst (fst (receive_message pipeline req now st)) = Returns no_json_response <->
   exists data, request_json req = Returns data /\ truthy data = false) /\
  (fst (fst (receive_message pipeline req now st)) = Returns empty_message_response <->
   exists fields,
     request_json req = Returns (JObject fields) /\
     truthy (JObject fields) = true /\
     (dict_lookup "message" fields = None \/
      exists v, dict_lookup "message" fields = Some v /\ truthy v = false)) /\
  fst (fst (receive_message pipeline (Json (JObject [])) now st))
  = Returns no_json_response.
Proof.
  split; [|split].
  - split.
    + intros Hresp.
      destruct req as [| |data]; simpl;
        try (rewrite receive_message_no_parse in Hresp by (simpl; eauto);
             discriminate Hresp).
      exists data. split; [reflexivity|].
      destruct (truthy data) eqn:Hdata; [exfalso|reflexivity].
      destruct data;
        try (rewrite receive_message_not_a_dict in Hresp
               by (try exact Hdata; intros ? ?; discriminate);
             discriminate Hresp).
      destruct (truthy (dict_get "message" (JString "") fields)) eqn:Hmsg.
      * rewrite receive_message_valid in Hresp by exact Hmsg. discriminate Hresp.
      * rewrite receive_message_falsy_message in Hresp;
          [discriminate Hresp| |exact Hmsg].
        destruct fields; [discriminate Hdata|discriminate].
    + intros (data & Hreq & Hdata). destruct req; try discriminate Hreq.
      injection Hreq as ->. rewrite receive_message_falsy_body by exact Hdata.
      reflexivity.
  - split.
    + intros Hresp.
      destruct req as [| |data]; simpl;
        try (rewrite receive_message_no_parse in Hresp by (simpl; eauto);
             discriminate Hresp).
      destruct (truthy data) eqn:Hdata.
      2:{ rewrite receive_message_falsy_body in Hresp by exact Hdata.
          discriminate Hresp. }
      destruct data;
        try (rewrite receive_message_not_a_dict in Hresp
               by (try exact Hdata; intros ? ?; discriminate);
             discriminate Hresp).
      exists fields. split; [reflexivity|]. split; [exact Hdata|].
      apply message_missing_or_falsy.
      destruct (truthy (dict_get "message" (JString "") fields)) eqn:Hmsg;
        [exfalso|reflexivity].
      rewrite receive_message_valid in Hresp by exact Hmsg. discriminate Hresp.
    + intros (fields & Hreq & Hdata & Hmsg). destruct req; try discriminate Hreq.
      injection Hreq as ->.
      rewrite receive_message_falsy_message; [reflexivity| |].
      * destruct fields; [discriminate Hdata|discriminate].
      * apply message_missing_or_falsy. exact Hmsg.
  - rewrite receive_message_falsy_body by reflexivity. reflexivity.
Qed.

End WithPipeline.

(** *** Concrete runs *)

Lemma rejected_request_changes_nothing_witness :
  receive_message (Returns (stub_classifier "sadness" 0.875%float))
    (Json (JObject [("message", JString "")])) 10%Z init_session_state
  = (Returns empty_message_response, init_session_state, []) /\
  snd empty_message_response = 400%Z /\
  (init_session_state = init_session_state /\ @nil event = [] /\
   messages init_session_state = messages init_session_state /\
   emotion_data init_session_state = emotion_data init_session_state).
Proof.
  split; [reflexivity|]. split; [reflexivity|].
  apply (rejected_request_changes_nothing
           (Returns (stub_classifier "sadness" 0.875%float))
           (Json (JObject [("message", JString "")])) 10%Z
           init_session_state init_session_state empty_message_response []).
  - reflexivity.
  - reflexivity.
Defined.

Lemma valid_request_internal_error_witness :
  fst (fst (analyze_emotions (Raises ModelError)
              (dict_get "message" (JString "") [("message", JString "I had a fine day")])
              init_session_state))
  = Returns ("unknown", 0%float) /\
  receive_message (Raises ModelError)
    (Json (JObject [("message", JString "I had a fine day")])) 10%Z init_session_state
  = (Returns internal_error_response, init_session_state, []) /\
  internal_error_response <> ok_response medium_response.
Proof.
  apply (valid_request_internal_error (Raises ModelError)
           [("message", JString "I had a fine day")] 10%Z init_session_state).
  reflexivity.
Defined.

Lemma absent_or_empty_message_witness :
  receive_message (Raises ModelError) (Json (JObject [("client_id", JString "c1")]))
    10%Z init_session_state
  = (Returns empty_message_response, init_session_state, []).
Proof.
  apply (absent_or_empty_message (Raises ModelError) [("client_id", JString "c1")]
           10%Z init_session_state).
  - discriminate.
  - left. reflexivity.
Defined.

(** C5 as first stated fails on the body {}: its [message] is absent, and
    the answer is "No JSON data received". *)
Lemma empty_object_not_empty_message :
  dict_lookup "message" (@nil (string * json)) = None /\
  fst (fst (receive_message (Raises ModelError) (Json (JObject [])) 10%Z
              init_session_state))
  = Returns no_json_response /\
  fst (fst (receive_message (Raises ModelError) (Json (JObject [])) 10%Z
              init_session_state))
  <> Returns empty_message_response.
Proof. repeat split. discriminate. Qed.

(** A classifier that would answer "sadness" changes nothing: it is never
    called, and the request is answered 500. *)
Example hopeless_run :
  receive_message (Returns (stub_classifier "sadness" 0.875%float))
    hopeless_request 10%Z init_session_state
  = (Returns internal_error_response, init_session_state, []).
Proof. reflexivity. Qed.

Example fine_day_run :
  receive_message (Returns (stub_classifier "neutral" 0.75%float))
    fine_day_request 10%Z init_session_state
  = (Returns internal_error_response, init_session_state, []).
Proof. reflexivity. Qed.

(** Falsy [message] values other than the empty string. *)
Example null_message :
  fst (fst (receive_message (Raises ModelError)
              (Json (JObject [("message", JNull)])) 10%Z init_session_state))
  = Returns empty_message_response.
Proof. reflexivity. Qed.

Example zero_message :
  fst (fst (receive_message (Raises ModelError)
              (Json (JObject [("message", JInt 0)])) 10%Z init_session_state))
  = Returns empty_message_response.
Proof. reflexivity. Qed.

Example false_message :
  fst (fst (receive_message (Raises ModelError)
              (Json (JObject [("message", JBool false)])) 10%Z init_session_state))
  = Returns empty_message_response.
Proof. reflexivity. Qed.

(** A truthy body that is not an object has no [get]: the answer is 500. *)
Example array_body :
  fst (fst (receive_message (Raises ModelError)
              (Json (JArray [JInt 1])) 10%Z init_session_state))
  = Returns internal_error_response.
Proof. reflexivity. Qed.

End Handler.

(** ** The sender *)

Module Client.
Import Sender.

Ltac run_send :=
  unfold send_message, try_except, bind, get_state, emit, lift, ret, modify;
  simpl.

Section WithNetwork.
Variable post : network.


Section Configured.
Variables (now message base : string) (st : session_state).
Hypothesis Hurl : server_url st = Some base.
Hypothesis Hbase : base <> "".

Lemma url_is_configured : url_configured (server_url st) = true.
Proof. rewrite Hurl. simpl. apply negb_true_iff, String.eqb_neq. exact Hbase. Qed.

(** The 200 path. *)
Lemma send_ok (resp : reply) (fields : py_dict json) (text risk : json) :
  post (support_url base) (request_data message st) = Returns resp ->
  status_code resp = 200%Z ->
  reply_json resp = Returns (JObject fields) ->
  dict_lookup "message" fields = Some text ->
  dict_lookup "risk_level" fields = Some risk ->
  send_message post now message st
  = (Returns (Some true),
     append_message (assistant_turn now text risk)
       (append_message (user_turn now message) st),
     [HttpPost (support_url base) (request_data message st)]).
Proof.
  unfold support_url, request_data.
  intros Hpost Hcode Hjson Hmsg Hrisk.
  run_send. rewrite url_is_configured, Hurl. simpl. rewrite Hpost. simpl.
  rewrite Hcode. simpl. rewrite Hjson. simpl.
  unfold dict_item. rewrite Hmsg, Hrisk. reflexivity.
Qed.

(** Any other status. *)
Lemma send_bad_status (resp : reply) :
  post (support_url base) (request_data message st) = Returns resp ->
  status_code resp <> 200%Z ->
  send_message post now message st
  = (Returns (Some false), st,
     [HttpPost (support_url base) (request_data message st);
      StError ("Error: Server returned status " ++ str_int (status_code resp))]).
Proof.
  unfold support_url, request_data.
  intros Hpost Hcode.
  run_send. rewrite url_is_configured, Hurl. simpl. rewrite Hpost. simpl.
  apply Z.eqb_neq in Hcode. rewrite Hcode. reflexivity.
Qed.

(** [requests.post] raises a [RequestException]. *)
Lemma send_connection_error (detail : string) :
  post (support_url base) (request_data message st)
  = Raises (RequestException detail) ->
  send_message post now message st
  = (Returns (Some false), st,
     [HttpPost (support_url base) (request_data message st);
      StError ("Connection error: " ++ detail)]).
Proof.
  unfold support_url, request_data.
  intros Hpost.
  run_send. rewrite url_is_configured, Hurl. simpl. rewrite Hpost. reflexivity.
Qed.

End Configured.

(** C9, amended: with a server URL configured, a 200 answer whose JSON body
    is an object carrying [message] and [risk_level] appends the user turn
    and the assistant turn, the latter tagged with the returned risk level,
    and gives [True]; any other status, or a [RequestException] from the
    POST, shows an error, leaves the transcript as it was, and gives
    [False]. *)
Theorem send_message_configured (now message base : string) (st : session_state) :
  server_url st = Some base ->
  base <> "" ->
  (forall resp fields text risk,
      post (support_url base) (request_data message st) = Returns resp ->
      status_code resp = 200%Z ->
      reply_json resp = Returns (JObject fields) ->
      dict_lookup "message" fields = Some text ->
      dict_lookup "risk_level" fields = Some risk ->
      send_message post now message st
      = (Returns (Some true),
         append_message (assistant_turn now text risk)
           (append_message (user_turn now message) st),
         [HttpPost (support_url base) (request_data message st)])) /\
  (forall resp,
      post (support_url base) (request_data message st) = Returns resp ->
      status_code resp <> 200%Z ->
      send_message post now message st
      = (Returns (Some false), st,
         [HttpPost (support_url base) (request_data message st);
          StError ("Error: Server returned status " ++ str_int (status_code resp))])) /\
  (forall detail,
      post (support_url base) (request_data message st)
      = Raises (RequestException detail) ->
      send_message post now message st
      = (Returns (Some false), st,
         [HttpPost (support_url base) (request_data message st);
          StError ("Connection error: " ++ detail)])).
Proof.
  intros Hurl Hbase. split; [|split].
  - intros resp fields text risk. apply send_ok; assumption.
  - intros resp. apply send_bad_status; assumption.
  - intros detail. apply send_connection_error; assumption.
Qed.

End WithNetwork.

(** X1: against the receiver itself the sender never raises: it gets [True] and
    two new turns, the assistant's tagged "high" or "medium", or it gets
    [False] and the transcript stays as it was. *)
Theorem send_to_receiver (pipeline : py_result Receiver.classifier) (at_ : instant)
  (server : Receiver.session_state) (now message base : string) (st : session_state) :
  server_url st = Some base ->
  base <> "" ->
  (exists text risk,
      (risk = "high" \/ risk = "medium") /\
      fst (send_message (Wire.loopback pipeline at_ server) now message st)
      = (Returns (Some true),
         append_message (assistant_turn now (JString text) (JString risk))
           (append_message (user_turn now message) st)))
  \/
  fst (send_message (Wire.loopback pipeline at_ server) now message st)
  = (Returns (Some false), st).
Proof.
  intros Hurl Hbase. right.
  pose proof (send_bad_status (Wire.loopback pipeline at_ server) now message base st
                Hurl Hbase) as Hbad.
  unfold Wire.loopback in *.
  destruct (Handler.receive_message_step pipeline
              (Receiver.Json (request_data message st)) at_ server)
    as (resp & Hrun & Hcases).
  rewrite Hrun in *. cbn [fst snd] in *.
  erewrite Hbad; [reflexivity|reflexivity|].
  destruct Hcases as [->|[->| ->]]; discriminate.
Qed.

Lemma send_to_receiver_witness :
  (exists text risk,
      (risk = "high" \/ risk = "medium") /\
      fst (send_message
             (Wire.loopback (Returns (Receiver.stub_classifier "fear" 0.75%float)) 10%Z
                Receiver.init_session_state)
             "2024-01-01 10:00:00" "I am scared" connected_client)
      = (Returns (Some true),
         append_message
           (assistant_turn "2024-01-01 10:00:00" (JString text) (JString risk))
           (append_message (user_turn "2024-01-01 10:00:00" "I am scared")
              connected_client)))
  \/
  fst (send_message
         (Wire.loopback (Returns (Receiver.stub_classifier "fear" 0.75%float)) 10%Z
            Receiver.init_session_state)
         "2024-01-01 10:00:00" "I am scared" connected_client)
  = (Returns (Some false), connected_client).
Proof.
  apply (send_to_receiver (Returns (Receiver.stub_classifier "fear" 0.75%float)) 10%Z
           Receiver.init_session_state "2024-01-01 10:00:00" "I am scared"
           "http://localhost:5000" connected_client).
  - reflexivity.
  - discriminate.
Defined.

(** The run above: the receiver answers 500 and the sender shows it. *)
Example scared_run :
  send_message
    (Wire.loopback (Returns (Receiver.stub_classifier "fear" 0.75%float)) 10%Z
       Receiver.init_session_state)
    "2024-01-01 10:00:00" "I am scared" connected_client
  = (Returns (Some false), connected_client,
     [HttpPost "http://localhost:5000/api/support"
        (request_data "I am scared" connected_client);
      StError "Error: Server returned status 500"]).
Proof. reflexivity. Qed.

Lemma send_message_configured_witness :
  send_message (answering 200 (Receiver.jsonify Receiver.high_response))
    "2024-01-01 10:00:00" "I feel hopeless" connected_client
  = (Returns (Some true),
     append_message
       (assistant_turn "2024-01-01 10:00:00" (JString Receiver.crisis_message)
          (JString "high"))
       (append_message (user_turn "2024-01-01 10:00:00" "I feel hopeless")
          connected_client),
     [HttpPost "http://localhost:5000/api/support"
        (request_data "I feel hopeless" connected_client)]).
Proof.
  refine (proj1 (send_message_configured
                   (answering 200 (Receiver.jsonify Receiver.high_response))
                   "2024-01-01 10:00:00" "I feel hopeless" "http://localhost:5000"
                   connected_client _ _)
            {| status_code := 200;
               reply_json := Returns (Receiver.jsonify Receiver.high_response) |}
            (map (fun kv => (fst kv, JString (snd kv))) Receiver.high_response)
            (JString Receiver.crisis_message) (JString "high") _ _ _ _ _).
  - reflexivity.
  - discriminate.
  - reflexivity.
  - reflexivity.
  - reflexivity.
  - reflexivity.
  - reflexivity.
Defined.

(** C9 as first stated fails on a 200 answer without the two fields: the
    user turn is already appended when [response_data["message"]] raises
    [KeyError], which the [except] clause does not catch. *)
Lemma ok_without_fields_raises :
  send_message (answering 200 (JObject [])) "2024-01-01 10:00:00" "hello"
    connected_client
  = (Raises KeyError,
     append_message (user_turn "2024-01-01 10:00:00" "hello") connected_client,
     [HttpPost "http://localhost:5000/api/support" (request_data "hello" connected_client)])
  /\
  fst (fst (send_message (answering 200 (JObject [])) "2024-01-01 10:00:00" "hello"
              connected_client))
  <> Returns (Some true).
Proof. split; [reflexivity|discriminate]. Qed.

Example server_error :
  send_message (answering 500 (JObject [("error", JString "Internal server error")]))
    "2024-01-01 10:00:00" "hello" connected_client
  = (Returns (Some false), connected_client,
     [HttpPost "http://localhost:5000/api/support" (request_data "hello" connected_client);
      StError "Error: Server returned status 500"]).
Proof. reflexivity. Qed.

Example connection_refused :
  send_message (unreachable "Connection refused")
    "2024-01-01 10:00:00" "hello" connected_client
  = (Returns (Some false), connected_client,
     [HttpPost "http://localhost:5000/api/support" (request_data "hello" connected_client);
      StError "Connection error: Connection refused"]).
Proof. reflexivity. Qed.


End Client.

(** ** More on the handler *)

Module Adapter.
Import Receiver.

Section WithPipeline.
Variable pipeline : py_result classifier.

(** The handler keeps [server_running]. *)
Lemma receive_message_server_running (req : request) (now : instant)
  (st : session_state) :
  server_running (snd (fst (receive_message pipeline req now st))) = server_running st.
Proof.
  destruct (Handler.receive_message_step pipeline req now st) as (resp & Hrun & _).
  rewrite Hrun. reflexivity.
Qed.

(** X8: a body that is truthy but not a JSON object (a non-empty array or
    string, a non-zero number, true) has no [get]: the answer is 500
    "Internal server error", and nothing is logged or called. *)
Theorem non_object_body_internal_error (data : json) (now : instant)
  (st : session_state) :
  truthy data = true ->
  (forall fields, data <> JObject fields) ->
  receive_message pipeline (Json data) now st
  = (Returns internal_error_response, st, []).
Proof. apply Handler.receive_message_not_a_dict. Qed.

End WithPipeline.

Lemma non_object_body_internal_error_witness :
  receive_message (Raises ModelError) (Json (JString "hello")) 10%Z init_session_state
  = (Returns internal_error_response, init_session_state, []).
Proof.
  apply (non_object_body_internal_error (Raises ModelError) (JString "hello") 10%Z
           init_session_state).
  - reflexivity.
  - intros fields H. discriminate H.
Defined.

End Adapter.

(** ** The dashboard *)

Module DashboardFacts.
Import Receiver Dashboard.

(** A session that was initialised once comes back as it was stored. *)
Lemma init_stored (st : session_state) : init_session_state (stored st) = st.
Proof. destruct st. reflexivity. Qed.

Lemma init_new_session : init_session_state new_session = Receiver.init_session_state.
Proof. reflexivity. Qed.

Ltac run_main :=
  unfold main, bind, get_state, emit, modify, ret; rewrite init_stored.

Ltac main_cases st w :=
  destruct st as [rows data running handle]; destruct w as [host port pressed];
  cbn [server_running messages emotion_data model start_pressed server_host
       server_port set_server_running];
  destruct running, pressed, rows, data.

(** What a run of [main] does to the session. *)
Lemma main_session (w : widgets) (st : session_state) :
  fst (fst (main w (stored st))) = Returns tt /\
  messages (snd (fst (main w (stored st)))) = messages st /\
  emotion_data (snd (fst (main w (stored st)))) = emotion_data st /\
  model (snd (fst (main w (stored st)))) = model st /\
  server_running (snd (fst (main w (stored st))))
  = server_running st || start_pressed w.
Proof. run_main. main_cases st w; simpl; auto. Qed.

(** The thread starts of one run. *)
Lemma main_thread_starts (w : widgets) (st : session_state) :
  filter is_thread_start (map Shown (snd (main w (stored st))))
  = if negb (server_running st) && start_pressed w
    then [Shown (StartThread (server_host w) (server_port w))]
    else [].
Proof. run_main. main_cases st w; reflexivity. Qed.

(** X9: a run of [main] displays the logs as they stand and changes neither
    of them nor the model handle: the message table is drawn exactly when
    the log is not empty, and then it shows the whole log; the same for the
    chart and the emotion log. *)
Theorem rerun_shows_logs (w : widgets) (st : session_state) :
  fst (fst (main w (stored st))) = Returns tt /\
  messages (snd (fst (main w (stored st)))) = messages st /\
  emotion_data (snd (fst (main w (stored st)))) = emotion_data st /\
  model (snd (fst (main w (stored st)))) = model st /\
  (forall rows,
      In (Dataframe rows) (snd (main w (stored st))) <->
      rows = messages st /\ rows <> []) /\
  (forall data,
      In (AltairChart data) (snd (main w (stored st))) <->
      data = emotion_data st /\ data <> []).
Proof.
  destruct (main_session w st) as (Hr & Hm & He & Hh & _).
  repeat (split; [assumption|]).
  run_main. main_cases st w; simpl;
    (split; intros x;
     (split;
      [ intros H; repeat (destruct H as [H|H]; try discriminate H);
        try contradiction;
        try (injection H as <-; split; [reflexivity|discriminate])
      | intros [-> Hne]; try (now destruct Hne); auto 20 ])).
Qed.

(** X10: a run starts the server thread exactly when the server is not yet
    marked as running and "Start Server" was clicked, on the host and port
    then in the fields; after the run the server is marked as running iff it
    was before or the button was clicked. *)
Theorem thread_start_iff (w : widgets) (st : session_state) (h : string) (p : Z) :
  (In (StartThread h p) (snd (main w (stored st))) <->
   server_running st = false /\ start_pressed w = true /\
   h = server_host w /\ p = server_port w) /\
  server_running (snd (fst (main w (stored st))))
  = server_running st || start_pressed w.
Proof.
  split; [|apply main_session].
  run_main. main_cases st w; simpl;
    (split;
     [ intros H; repeat (destruct H as [H|H]; try discriminate H);
       try contradiction; try (injection H as <- <-; auto)
     | intros (Hr & Hp & -> & ->); try discriminate Hr; try discriminate Hp;
       auto 20 ]).
Qed.

Section WithPipeline.
Variable pipeline : py_result classifier.

Lemma run_app_rerun (w : widgets) (rest : list step) (st : session_state) :
  run_app pipeline (Rerun w :: rest) st
  = (fst (run_app pipeline rest (snd (fst (main w (stored st))))),
     (map Shown (snd (main w (stored st)))
      ++ snd (run_app pipeline rest (snd (fst (main w (stored st))))))%list).
Proof.
  simpl. destruct (main w (stored st)) as [[r st1] shown]. simpl.
  destruct (run_app pipeline rest st1). reflexivity.
Qed.

Lemma run_app_post (req : request) (now : instant) (rest : list step)
  (st st1 : session_state) (resp : http_response) (calls : list event) :
  receive_message pipeline req now st = (Returns resp, st1, calls) ->
  run_app pipeline (Post req now :: rest) st
  = (fst (run_app pipeline rest st1),
     (map Called calls ++ [Answered resp] ++ snd (run_app pipeline rest st1))%list).
Proof.
  intros H. simpl. rewrite H. destruct (run_app pipeline rest st1). reflexivity.
Qed.

Lemma no_thread_in_calls (calls : list event) :
  filter is_thread_start (map Called calls) = [].
Proof. induction calls as [|c calls IH]; [reflexivity|exact IH]. Qed.

Lemma thread_starts_bound (steps : list step) (st : session_state) :
  length (filter is_thread_start (snd (run_app pipeline steps st)))
  <= (if server_running st then 0 else 1).
Proof.
  revert st. induction steps as [|[w|req now] rest IH]; intros st.
  - simpl. destruct (server_running st); lia.
  - rewrite run_app_rerun. cbn [snd]. rewrite filter_app, length_app.
    rewrite main_thread_starts.
    specialize (IH (snd (fst (main w (stored st))))).
    destruct (main_session w st) as (_ & _ & _ & _ & Hsr). rewrite Hsr in IH.
    destruct (server_running st), (start_pressed w); simpl in *; lia.
  - assert (Hreturns : exists resp st1 calls,
               receive_message pipeline req now st = (Returns resp, st1, calls)).
    { destruct (Handler.receive_message_step pipeline req now st)
        as (resp & Hrun & _); eauto. }
    destruct Hreturns as (resp & st1 & calls & Hrun).
    rewrite (run_app_post _ _ _ _ _ _ _ Hrun). cbn [snd].
    rewrite !filter_app, !length_app, no_thread_in_calls. simpl.
    specialize (IH st1).
    pose proof (Adapter.receive_message_server_running pipeline req now st) as Hsr.
    rewrite Hrun in Hsr. simpl in Hsr. rewrite Hsr in IH. exact IH.
Qed.

(** X11: whatever the sequence of reruns and requests, the server thread is
    started at most once, and never when the session already has the server
    marked as running. *)
Theorem thread_started_at_most_once (steps : list step) (st : session_state) :
  length (filter is_thread_start (snd (run_app pipeline steps st))) <= 1 /\
  (server_running st = true ->
   filter is_thread_start (snd (run_app pipeline steps st)) = []).
Proof.
  pose proof (thread_starts_bound steps st) as H. split.
  - destruct (server_running st); lia.
  - intros Hsr. rewrite Hsr in H.
    destruct (filter is_thread_start (snd (run_app pipeline steps st)));
      [reflexivity|simpl in H; lia].
Qed.

(** X12: the handler never reaches the page's session.  Whatever the
    sequence of reruns and requests, both logs and the model handle of the
    page's session stay as they were, and no request is answered 200; so a
    page whose logs are empty goes on drawing neither the message table nor
    the chart. *)
Theorem logs_never_change (steps : list step) (st : session_state) :
  messages (fst (run_app pipeline steps st)) = messages st /\
  emotion_data (fst (run_app pipeline steps st)) = emotion_data st /\
  model (fst (run_app pipeline steps st)) = model st /\
  filter is_accepted_answer (snd (run_app pipeline steps st)) = [] /\
  (messages st = [] ->
   forall rows, ~ In (Shown (Dataframe rows)) (snd (run_app pipeline steps st))).
Proof.
  assert (Hshown : forall shown, filter is_accepted_answer (map Shown shown) = []).
  { induction shown as [|u shown IHs]; [reflexivity|exact IHs]. }
  assert (Hcalled : forall calls, filter is_accepted_answer (map Called calls) = []).
  { induction calls as [|c calls IHs]; [reflexivity|exact IHs]. }
  revert st. induction steps as [|[w|req now] rest IH]; intros st.
  - simpl. repeat split. intros _ rows [].
  - rewrite run_app_rerun. cbn [fst snd].
    destruct (main_session w st) as (_ & Hm & He & Hh & _).
    destruct (IH (snd (fst (main w (stored st))))) as (IHm & IHe & IHh & IHa & IHd).
    rewrite IHm, IHe, IHh, Hm, He, Hh, filter_app, Hshown, IHa.
    repeat split. intros Hempty rows Hin.
    apply in_app_or in Hin. destruct Hin as [Hin|Hin].
    + apply in_map_iff in Hin. destruct Hin as (u & [= ->] & Hin).
      revert Hin. unfold main, bind, get_state, emit, modify, ret.
      rewrite init_stored.
      destruct st as [rows0 data running handle]; destruct w as [host port pressed].
      simpl in Hempty. subst rows0.
      cbn [server_running messages emotion_data model start_pressed server_host
           server_port set_server_running].
      destruct running, pressed, data; simpl; intros H;
        repeat (destruct H as [H|H]; try discriminate H); exact H.
    + apply (IHd (eq_trans Hm Hempty) rows Hin).
  - destruct (Handler.receive_message_step pipeline req now st)
      as (resp & Hrun & Hcases).
    rewrite (run_app_post _ _ _ _ _ _ _ Hrun). cbn [fst snd].
    destruct (IH st) as (IHm & IHe & IHh & IHa & IHd).
    rewrite !filter_app, Hcalled, IHa.
    split; [exact IHm|]. split; [exact IHe|]. split; [exact IHh|]. split.
    + destruct Hcases as [->|[->| ->]]; reflexivity.
    + intros Hempty rows Hin. simpl in Hin.
      destruct Hin as [Hin|Hin]; [discriminate Hin|].
      apply (IHd Hempty rows Hin).
Qed.

End WithPipeline.

(** Requests that pass validation come in, and the page still has nothing
    to show. *)
Example nothing_logged :
  let run := run_app (Returns (stub_classifier "sadness" 0.875%float))
               [Rerun {| server_host := "localhost"; server_port := 5000;
                         start_pressed := true |};
                Post hopeless_request 10%Z;
                Post (Json (JObject [])) 11%Z;
                Post fine_day_request 12%Z;
                Rerun {| server_host := "localhost"; server_port := 5000;
                         start_pressed := false |}]
               Receiver.init_session_state in
  messages (fst run) = [] /\
  filter (fun o => match o with Answered _ => true | _ => false end) (snd run)
  = [Answered internal_error_response; Answered no_json_response;
     Answered internal_error_response].
Proof. cbv zeta. split; reflexivity. Qed.

Lemma thread_started_at_most_once_witness :
  filter is_thread_start
    (snd (run_app (Raises ModelError)
            [Rerun {| server_host := "localhost"; server_port := 5000;
                      start_pressed := true |}]
            (set_server_running true Receiver.init_session_state)))
  = [].
Proof.
  apply (proj2 (thread_started_at_most_once (Raises ModelError)
                  [Rerun {| server_host := "localhost"; server_port := 5000;
                            start_pressed := true |}]
                  (set_server_running true Receiver.init_session_state))).
  reflexivity.
Defined.

(** Two clicks in a row on a fresh session: one thread. *)
Example double_click :
  filter is_thread_start
    (snd (run_app (Raises ModelError)
            [Rerun {| server_host := "localhost"; server_port := 5000;
                      start_pressed := true |};
             Rerun {| server_host := "0.0.0.0"; server_port := 8080;
                      start_pressed := true |}]
            Receiver.init_session_state))
  = [Shown (StartThread "localhost" 5000)].
Proof. reflexivity. Qed.

(** The sidebar shows the address in the fields of the current run, which
    need not be the one the thread was started on. *)
Example sidebar_address_follows_fields :
  In (SidebarInfo ("Server is running at:" ++ newline ++
                   "http://0.0.0.0:8080/api/support"))
    (snd (main {| server_host := "0.0.0.0"; server_port := 8080;
                  start_pressed := false |}
            (stored (snd (fst (main {| server_host := "localhost"; server_port := 5000;
                                       start_pressed := true |}
                                 new_session)))))).
Proof. vm_compute. auto 20. Qed.

End DashboardFacts.

(** ** The chat page *)

Module ChatFacts.
Import Sender Chat.

Lemma script_unfold (i : inputs) (raw : raw_session) :
  script i raw
  = let st := connect i (init_session (fresh_uuid i) raw) in
    if url_configured (server_url st) then
      match prompt i with
      | Some text =>
          if negb (text =? "") then
            match send_message (post i) (clock i) text st with
            | (Returns _, st1, ev) =>
                (Returns tt, st1,
                 (page_top st ++ [ChatInput "Share your thoughts..."]
                  ++ map Sent ev ++ page_bottom)%list)
            | (Raises e, st1, ev) =>
                (Raises e, st1,
                 (page_top st ++ [ChatInput "Share your thoughts..."]
                  ++ map Sent ev)%list)
            end
          else
            (Returns tt, st,
             (page_top st ++ [ChatInput "Share your thoughts..."] ++ page_bottom)%list)
      | None =>
          (Returns tt, st,
           (page_top st ++ [ChatInput "Share your thoughts..."] ++ page_bottom)%list)
      end
    else
      (Returns tt, st,
       (page_top st
        ++ [Info "Please configure the server connection to start chatting."]
        ++ page_bottom)%list).
Proof.
  unfold script, connect, page_top, page_bottom, with_events, emit_all, bind,
    get_state, emit, modify, ret.
  set (st0 := init_session (fresh_uuid i) raw).
  destruct (connect_pressed i); cbn -[url_configured send_message render_transcript].
  all: match goal with |- context [url_configured ?u] => destruct (url_configured u) end.
  all: cbn -[send_message render_transcript].
  all: try destruct (prompt i) as [text|]; cbn -[send_message render_transcript].
  all: try destruct (negb (text =? "")); cbn -[send_message render_transcript].
  all: try match goal with |- context [send_message ?a ?b ?c ?d] =>
             destruct (send_message a b c d) as [[[r|e] st1] ev] end.
  all: cbn -[send_message render_transcript].
  all: rewrite <- ?app_assoc; cbn -[render_transcript]; rewrite ?app_nil_r.
  all: reflexivity.
Qed.

(** Every way a call of [send_message] can go. *)
Lemma send_message_shape (post : network) (now message : string) (st : session_state) :
  exists new ev r st1,
    send_message post now message st = (r, st1, ev) /\
    messages st1 = (messages st ++ new)%list /\
    client_id st1 = client_id st /\
    server_url st1 = server_url st /\
    ((url_configured (server_url st) = false /\ new = [] /\
      ev = [StError "Server URL not configured"] /\ r = Returns None)
     \/
     (url_configured (server_url st) = true /\
      exists errors,
        ev = HttpPost (target st) (request_data message st) :: errors /\
        filter is_http_post errors = [] /\
        ((new = [] /\ r = Returns (Some false))
         \/ (new = [] /\ exists e, r = Raises e /\ is_request_exception e = false)
         \/ (new = [user_turn now message] /\
             exists e, r = Raises e /\ is_request_exception e = false)
         \/ (exists text risk,
                new = [user_turn now message; assistant_turn now text risk] /\
                r = Returns (Some true))))).
Proof.
  unfold send_message, try_except, bind, get_state, emit, lift, ret, modify, target,
    request_data.
  destruct (url_configured (server_url st)) eqn:Hconf; cbn [negb].
  - set (url := (match server_url st with Some u => u | None => "None" end
                 ++ "/api/support")).
    set (data := JObject [("message", JString message);
                          ("client_id", JString (client_id st))]).
    cbn -[is_request_exception].
    destruct (post url data) as [resp|e]; cbn -[is_request_exception].
    + destruct (status_code resp =? 200)%Z; cbn -[is_request_exception].
      * destruct (reply_json resp) as [body|e]; cbn -[is_request_exception].
        -- unfold json_item.
           destruct body; cbn -[is_request_exception];
             try (exists [user_turn now message]; do 3 eexists;
                  split; [reflexivity|]; cbn; rewrite ?app_nil_r;
                  repeat (split; [reflexivity|]); right;
                  split; [reflexivity|]; eexists; split; [reflexivity|];
                  split; [reflexivity|]; right; right; left;
                  split; [reflexivity|]; eexists; split; reflexivity).
           unfold dict_item.
           destruct (dict_lookup "message" fields) as [text|];
             cbn -[is_request_exception];
             [destruct (dict_lookup "risk_level" fields) as [risk|];
              cbn -[is_request_exception]|].
           ++ exists [user_turn now message; assistant_turn now text risk].
              do 3 eexists. split; [reflexivity|]. cbn. rewrite <- app_assoc.
              repeat (split; [reflexivity|]). right. split; [reflexivity|].
              eexists. split; [reflexivity|]. split; [reflexivity|].
              right. right. right. eauto.
           ++ exists [user_turn now message]. do 3 eexists.
              split; [reflexivity|]. cbn.
              repeat (split; [reflexivity|]). right. split; [reflexivity|].
              eexists. split; [reflexivity|]. split; [reflexivity|].
              right. right. left. split; [reflexivity|]. eexists. split; reflexivity.
           ++ exists [user_turn now message]. do 3 eexists.
              split; [reflexivity|]. cbn.
              repeat (split; [reflexivity|]). right. split; [reflexivity|].
              eexists. split; [reflexivity|]. split; [reflexivity|].
              right. right. left. split; [reflexivity|]. eexists. split; reflexivity.
        -- destruct (is_request_exception e) eqn:Hexn; cbn.
           ++ exists []. do 3 eexists. split; [reflexivity|]. rewrite app_nil_r.
              repeat (split; [reflexivity|]). right. split; [reflexivity|].
              eexists. split; [reflexivity|]. split; [reflexivity|]. left. auto.
           ++ exists []. do 3 eexists. split; [reflexivity|]. rewrite app_nil_r.
              repeat (split; [reflexivity|]). right. split; [reflexivity|].
              eexists. split; [reflexivity|]. split; [reflexivity|]. right. left. eauto.
      * exists []. do 3 eexists. split; [reflexivity|]. rewrite app_nil_r.
        repeat (split; [reflexivity|]). right. split; [reflexivity|].
        eexists. split; [reflexivity|]. split; [reflexivity|]. left. auto.
    + destruct (is_request_exception e) eqn:Hexn; cbn.
      * exists []. do 3 eexists. split; [reflexivity|]. rewrite app_nil_r.
        repeat (split; [reflexivity|]). right. split; [reflexivity|].
        eexists. split; [reflexivity|]. split; [reflexivity|]. left. auto.
      * exists []. do 3 eexists. split; [reflexivity|]. rewrite app_nil_r.
        repeat (split; [reflexivity|]). right. split; [reflexivity|].
        eexists. split; [reflexivity|]. split; [reflexivity|]. right. left. eauto.
  - exists []. do 3 eexists. split; [reflexivity|]. rewrite app_nil_r.
    repeat (split; [reflexivity|]). left. auto.
Qed.

(** X13: whatever the network does, [send_message] never touches the
    client id or the server URL and only appends to the transcript: nothing
    when it gives [False] or [None], the user turn and the assistant turn
    when it gives [True], at most two rows in any case.  It posts exactly
    once when a URL is configured and not at all otherwise. *)
Theorem send_message_frame (post : network) (now message : string) (st : session_state) :
  client_id (snd (fst (send_message post now message st))) = client_id st /\
  server_url (snd (fst (send_message post now message st))) = server_url st /\
  (exists new,
      messages (snd (fst (send_message post now message st)))
      = (messages st ++ new)%list /\
      length new <= 2 /\
      (fst (fst (send_message post now message st)) = Returns (Some true) ->
       exists text risk,
         new = [user_turn now message; assistant_turn now text risk]) /\
      (fst (fst (send_message post now message st)) = Returns (Some false) \/
       fst (fst (send_message post now message st)) = Returns None ->
       new = [])) /\
  length (filter is_http_post (snd (send_message post now message st)))
  = if url_configured (server_url st) then 1 else 0.
Proof.
  destruct (send_message_shape post now message st)
    as (new & ev & r & st1 & Hrun & Hm & Hc & Hu & Hcases).
  rewrite Hrun. cbn [fst snd].
  split; [exact Hc|]. split; [exact Hu|].
  destruct Hcases
    as [(Hconf & -> & -> & ->)
       |(Hconf & errors & -> & Herr
         & [(-> & ->)|[(-> & e & -> & He)|[(-> & e & -> & He)
                                          |(text & risk & -> & ->)]]])];
    rewrite Hconf; cbn [filter is_http_post]; rewrite ?Herr;
    (split; [|reflexivity]); eexists; (split; [exact Hm|]);
    (split; [simpl; lia|]); split; try discriminate; try reflexivity;
    try (intros [H|H]; discriminate H); eauto.
Qed.

(** X14: [send_message] gives [None] exactly when no server URL is
    configured, and no [RequestException] ever leaves it. *)
Theorem send_message_result (post : network) (now message : string) (st : session_state) :
  (fst (fst (send_message post now message st)) = Returns None <->
   url_configured (server_url st) = false) /\
  (forall detail,
      fst (fst (send_message post now message st)) <> Raises (RequestException detail)).
Proof.
  destruct (send_message_shape post now message st)
    as (new & ev & r & st1 & Hrun & _ & _ & _ & Hcases).
  rewrite Hrun. cbn [fst snd].
  destruct Hcases
    as [(Hconf & _ & _ & ->)
       |(Hconf & errors & _ & _
         & [(_ & ->)|[(_ & e & -> & He)|[(_ & e & -> & He)|(text & risk & _ & ->)]]])];
    rewrite Hconf; split;
    try (split; [reflexivity|reflexivity]);
    try (split; discriminate);
    try (intros detail; discriminate);
    intros detail [= ->]; discriminate He.
Qed.

(** *** Drawing the transcript *)

Lemma is_high_iff (risk : option json) :
  is_high risk = true <-> risk = Some (JString "high").
Proof.
  unfold is_high. destruct risk as [[]|]; split; try discriminate.
  - intros H. apply String.eqb_eq in H. now subst.
  - intros [= ->]. reflexivity.
Qed.

Lemma warns_iff (t : turn) :
  warns t = true <-> role t = "assistant" /\ risk_level t = Some (JString "high").
Proof.
  unfold warns. rewrite andb_true_iff, String.eqb_eq, is_high_iff. reflexivity.
Qed.

Lemma render_turn_warnings (t : turn) :
  filter is_warning (render_turn t) = if warns t then [Warning warning_text] else [].
Proof. unfold render_turn. fold (warns t). destruct (warns t); reflexivity. Qed.

Lemma warning_for_turn (t : turn) (transcript : list turn) :
  In t transcript ->
  warns t = true ->
  In (Warning warning_text) (render_transcript transcript).
Proof.
  intros Hin Hw. unfold render_transcript. apply in_flat_map.
  exists t. split; [exact Hin|].
  unfold render_turn. fold (warns t). rewrite Hw. simpl. auto.
Qed.

(** X15: the page draws the crisis warning once for every assistant turn
    tagged "high", not only for the latest one, and for no other turn. *)
Theorem warnings_drawn (transcript : list turn) :
  length (filter is_warning (render_transcript transcript))
  = length (filter warns transcript) /\
  (In (Warning warning_text) (render_transcript transcript) <->
   exists t,
     In t transcript /\ role t = "assistant" /\
     risk_level t = Some (JString "high")).
Proof.
  split.
  - induction transcript as [|t rest IH]; [reflexivity|].
    unfold render_transcript in *. cbn [flat_map filter].
    rewrite filter_app, length_app, IH, render_turn_warnings.
    destruct (warns t); reflexivity.
  - unfold render_transcript. rewrite in_flat_map. split.
    + intros (t & Hin & Hw). exists t. split; [exact Hin|].
      apply warns_iff. unfold render_turn in Hw. fold (warns t) in Hw.
      destruct (warns t); [reflexivity|].
      destruct Hw as [Hw|[Hw|[]]]; discriminate Hw.
    + intros (t & Hin & Hw). apply warns_iff in Hw.
      exists t. split; [exact Hin|].
      unfold render_turn. fold (warns t). rewrite Hw. simpl. auto.
Qed.

(** *** Runs of the script *)

Lemma render_no_post (transcript : list turn) :
  filter is_post (render_transcript transcript) = [].
Proof.
  induction transcript as [|t rest IH]; [reflexivity|].
  unfold render_transcript in *. cbn [flat_map]. rewrite filter_app, IH.
  unfold render_turn. destruct ((role t =? "assistant") && is_high (risk_level t));
    reflexivity.
Qed.

Lemma page_top_no_post (st : session_state) : filter is_post (page_top st) = [].
Proof. unfold page_top. rewrite filter_app, render_no_post. reflexivity. Qed.

Lemma connect_client_id (i : inputs) (st : session_state) :
  client_id (connect i st) = client_id st /\ messages (connect i st) = messages st.
Proof. unfold connect. destruct (connect_pressed i); split; reflexivity. Qed.

(** The posts of one run carry the session's client id, and the run leaves
    the id where it was. *)
Lemma script_client_id (i : inputs) (raw : raw_session) :
  client_id (snd (fst (script i raw))) = client_id (init_session (fresh_uuid i) raw) /\
  Forall (fun u => is_post u = true ->
                   posted_client_id u
                   = Some (JString (client_id (init_session (fresh_uuid i) raw))))
    (snd (script i raw)).
Proof.
  rewrite script_unfold. cbv zeta.
  set (st0 := init_session (fresh_uuid i) raw).
  destruct (connect_client_id i st0) as [Hid _].
  set (st := connect i st0) in *.
  assert (Htop : Forall (fun u => is_post u = true ->
                                  posted_client_id u = Some (JString (client_id st0)))
                   (page_top st)).
  { apply Forall_forall. intros u Hu Hpost. exfalso.
    assert (Hin : In u (filter is_post (page_top st)))
      by (apply filter_In; split; assumption).
    rewrite page_top_no_post in Hin. exact Hin. }
  assert (Hlit : forall x tail,
             is_post x = false -> Forall (fun u => is_post u = false) tail ->
             Forall (fun u => is_post u = true ->
                              posted_client_id u = Some (JString (client_id st0)))
               (page_top st ++ [x] ++ tail)%list).
  { intros x tail Hx Htail. apply Forall_app. split; [exact Htop|].
    constructor; [intros H; rewrite Hx in H; discriminate H|].
    eapply Forall_impl; [|exact Htail]. intros u Hu H. rewrite Hu in H.
    discriminate H. }
  assert (Hbottom : Forall (fun u => is_post u = false) page_bottom)
    by (repeat constructor).
  destruct (url_configured (server_url st));
    [|split; [exact Hid|apply Hlit; [reflexivity|exact Hbottom]]].
  destruct (prompt i) as [text|];
    [|split; [exact Hid|apply Hlit; [reflexivity|exact Hbottom]]].
  destruct (negb (text =? ""));
    [|split; [exact Hid|apply Hlit; [reflexivity|exact Hbottom]]].
  destruct (send_message_shape (post i) (clock i) text st)
    as (new & ev & r & st1 & Hrun & _ & Hc & _ & Hcases).
  rewrite Hrun.
  assert (Hsent : Forall (fun u => is_post u = true ->
                                   posted_client_id u
                                   = Some (JString (client_id st0)))
                    (map Sent ev)).
  { destruct Hcases as [(_ & _ & -> & _)|(_ & errors & -> & Herr & _)].
    - repeat constructor. discriminate.
    - cbn [map]. constructor.
      + intros _. unfold request_data. simpl. rewrite Hid. reflexivity.
      + apply Forall_forall. intros u Hu Hpost. exfalso.
        apply in_map_iff in Hu. destruct Hu as (e & <- & He).
        assert (Hin : In e (filter is_http_post errors)).
        { apply filter_In. split; [exact He|]. destruct e; [discriminate Hpost|reflexivity]. }
        rewrite Herr in Hin. exact Hin. }
  destruct r as [result|e]; cbn [fst snd]; (split; [congruence|]).
  - apply Forall_app. split; [exact Htop|]. constructor; [discriminate|].
    apply Forall_app. split; [exact Hsent|].
    eapply Forall_impl; [|exact Hbottom]. intros u Hu H. rewrite Hu in H.
    discriminate H.
  - apply Forall_app. split; [exact Htop|]. constructor; [discriminate|].
    exact Hsent.
Qed.

Lemma run_chat_cons (i : inputs) (rest : list inputs) (raw : raw_session) :
  run_chat (i :: rest) raw
  = (fst (run_chat rest (stored (snd (fst (script i raw))))),
     (snd (script i raw)
      ++ snd (run_chat rest (stored (snd (fst (script i raw))))))%list).
Proof.
  simpl. destruct (script i raw) as [[r st1] shown]. simpl.
  destruct (run_chat rest (stored st1)). reflexivity.
Qed.

Lemma run_chat_client_id (runs : list inputs) (raw : raw_session) (id : string) :
  raw_client_id raw = Some id ->
  raw_client_id (fst (run_chat runs raw)) = Some id /\
  Forall (fun u => is_post u = true -> posted_client_id u = Some (JString id))
    (snd (run_chat runs raw)).
Proof.
  revert raw. induction runs as [|i rest IH]; intros raw Hid.
  - simpl. auto.
  - rewrite run_chat_cons. cbn [fst snd].
    destruct (script_client_id i raw) as [Hkeep Hposts].
    assert (Hinit : client_id (init_session (fresh_uuid i) raw) = id)
      by (unfold init_session; simpl; rewrite Hid; reflexivity).
    rewrite Hinit in *.
    destruct (IH (stored (snd (fst (script i raw))))) as [Hfinal Hrest].
    { simpl. rewrite Hkeep. reflexivity. }
    split; [exact Hfinal|]. apply Forall_app. split; assumption.
Qed.

(** X16: the client id is made once and kept.  Whatever the runs of the
    script on a browser session, the id the first run leaves in the session
    (the stored one, or else the fresh UUID of that run) is still there
    after the last run, and every POST of every run carries it. *)
Theorem client_id_is_stable (first : inputs) (later : list inputs) (raw : raw_session) :
  raw_client_id (fst (run_chat (first :: later) raw))
  = Some (client_id (init_session (fresh_uuid first) raw)) /\
  Forall (fun u => is_post u = true ->
                   posted_client_id u
                   = Some (JString (client_id (init_session (fresh_uuid first) raw))))
    (snd (run_chat (first :: later) raw)).
Proof.
  rewrite run_chat_cons. cbn [fst snd].
  destruct (script_client_id first raw) as [Hkeep Hposts].
  destruct (run_chat_client_id later (stored (snd (fst (script first raw))))
              (client_id (init_session (fresh_uuid first) raw)))
    as [Hfinal Hrest].
  { simpl. rewrite Hkeep. reflexivity. }
  split; [exact Hfinal|]. apply Forall_app. split; assumption.
Qed.

(** X17: nothing is posted before "Connect".  On a session with no server
    URL, runs in which "Connect" is not clicked post nothing and leave the
    transcript as it was, whatever is typed. *)
Theorem no_post_before_connect (runs : list inputs) (raw : raw_session) (u : string) :
  url_configured (server_url (init_session u raw)) = false ->
  Forall (fun i => connect_pressed i = false) runs ->
  filter is_post (snd (run_chat runs raw)) = [] /\
  messages (init_session u (fst (run_chat runs raw))) = messages (init_session u raw).
Proof.
  revert raw. induction runs as [|i rest IH]; intros raw Hurl Hruns.
  - simpl. auto.
  - inversion Hruns as [|? ? Hi Hrest]; subst.
    rewrite run_chat_cons. cbn [fst snd].
    assert (Hscript : script i raw
                      = (Returns tt, init_session (fresh_uuid i) raw,
                         (page_top (init_session (fresh_uuid i) raw)
                          ++ [Info "Please configure the server connection to start chatting."]
                          ++ page_bottom)%list)).
    { rewrite script_unfold. unfold connect. rewrite Hi. cbv zeta.
      change (server_url (init_session (fresh_uuid i) raw))
        with (server_url (init_session u raw)).
      rewrite Hurl. reflexivity. }
    rewrite Hscript. cbn [fst snd].
    destruct (IH (stored (init_session (fresh_uuid i) raw))) as [Hnone Hsame];
      [exact Hurl|exact Hrest|].
    split.
    + rewrite !filter_app, page_top_no_post, Hnone. reflexivity.
    + rewrite Hsame. reflexivity.
Qed.

(** X18: a run in which "Connect" is clicked and a text is submitted posts
    that text, with the session's client id, to the address made of the
    host and port in the sidebar fields followed by /api/support. *)
Theorem connect_then_send (i : inputs) (raw : raw_session) (text : string) :
  connect_pressed i = true ->
  prompt i = Some text ->
  text <> "" ->
  In (Sent (HttpPost (base_url (server_host i) (server_port i) ++ "/api/support")
              (request_data text (init_session (fresh_uuid i) raw))))
    (snd (script i raw)).
Proof.
  intros Hconnect Hprompt Htext.
  rewrite script_unfold. unfold connect. rewrite Hconnect, Hprompt. cbv zeta.
  set (st := set_server_url (Some (base_url (server_host i) (server_port i)))
               (init_session (fresh_uuid i) raw)).
  assert (Hconf : url_configured (server_url st) = true) by reflexivity.
  rewrite Hconf.
  apply String.eqb_neq in Htext. rewrite Htext. cbn [negb].
  destruct (send_message_shape (post i) (clock i) text st)
    as (new & ev & r & st1 & Hrun & _ & _ & _ & Hcases).
  rewrite Hrun.
  destruct Hcases as [(Hno & _)|(_ & errors & -> & _)];
    [rewrite Hconf in Hno; discriminate Hno|].
  assert (Hin : In (Sent (HttpPost
                            (base_url (server_host i) (server_port i) ++ "/api/support")
                            (request_data text (init_session (fresh_uuid i) raw))))
                  (map Sent (HttpPost (target st) (request_data text st) :: errors)))
    by (left; reflexivity).
  destruct r as [result|e]; cbn [snd]; rewrite !in_app_iff; auto.
Qed.

(** X19: sender and receiver together, as the repository runs them.  A
    connected sender that submits a text that is not empty gets 500 from the
    receiver, whatever the classifier would say of the text: [send_message]
    shows the status, gives [False] and leaves the transcript as it was, so
    the page draws no new turn and no new warning. *)
Theorem receiver_always_refuses (pipeline : py_result Receiver.classifier)
  (at_ : instant) (server : Receiver.session_state)
  (now text base : string) (st : session_state) :
  server_url st = Some base ->
  base <> "" ->
  text <> "" ->
  send_message (Wire.loopback pipeline at_ server) now text st
  = (Returns (Some false), st,
     [HttpPost (support_url base) (request_data text st);
      StError "Error: Server returned status 500"]) /\
  render_transcript
    (messages (snd (fst (send_message (Wire.loopback pipeline at_ server) now text st))))
  = render_transcript (messages st).
Proof.
  intros Hurl Hbase Htext.
  set (fields := [("message", JString text); ("client_id", JString (client_id st))]).
  assert (Hmsg : truthy (dict_get "message" (JString "") fields) = true).
  { simpl. apply negb_true_iff, String.eqb_neq. exact Htext. }
  pose proof (Handler.receive_message_valid pipeline fields at_ server Hmsg) as Hrun.
  assert (Hsend :
            send_message (Wire.loopback pipeline at_ server) now text st
            = (Returns (Some false), st,
               [HttpPost (support_url base) (request_data text st);
                StError "Error: Server returned status 500"])).
  { apply (Client.send_bad_status (Wire.loopback pipeline at_ server) now text base st
             Hurl Hbase
             {| status_code := 500;
                reply_json := Returns (fst Receiver.internal_error_response) |}).
    - unfold Wire.loopback. change (request_data text st) with (JObject fields).
      rewrite Hrun. reflexivity.
    - discriminate. }
  rewrite Hsend. split; reflexivity.
Qed.


Lemma no_post_before_connect_witness :
  filter is_post (snd (run_chat [typing_run; typing_run] new_session)) = [] /\
  messages (init_session "" (fst (run_chat [typing_run; typing_run] new_session)))
  = messages (init_session "" new_session).
Proof.
  apply (no_post_before_connect [typing_run; typing_run] new_session "").
  - reflexivity.
  - repeat constructor.
Defined.

Lemma connect_then_send_witness :
  In (Sent (HttpPost "http://localhost:5000/api/support"
              (JObject [("message", JString "hello");
                        ("client_id", JString "0b0e6e0c-7f55-4c0e-9d2b-0c1f4a1d2e3f")])))
    (snd (script connecting_run new_session)).
Proof.
  apply (connect_then_send connecting_run new_session "hello").
  - reflexivity.
  - reflexivity.
  - discriminate.
Defined.

Lemma receiver_always_refuses_witness :
  send_message
    (Wire.loopback (Returns (Receiver.stub_classifier "fear" 0.75%float)) 10%Z
       Receiver.init_session_state)
    "2024-01-01 10:00:00" "I am scared" connected_client
  = (Returns (Some false), connected_client,
     [HttpPost (support_url "http://localhost:5000")
        (request_data "I am scared" connected_client);
      StError "Error: Server returned status 500"]) /\
  render_transcript
    (messages
       (snd (fst (send_message
                    (Wire.loopback (Returns (Receiver.stub_classifier "fear" 0.75%float))
                       10%Z Receiver.init_session_state)
                    "2024-01-01 10:00:00" "I am scared" connected_client))))
  = render_transcript (messages connected_client).
Proof.
  apply (receiver_always_refuses
           (Returns (Receiver.stub_classifier "fear" 0.75%float)) 10%Z
           Receiver.init_session_state "2024-01-01 10:00:00" "I am scared"
           "http://localhost:5000" connected_client).
  - reflexivity.
  - discriminate.
  - discriminate.
Defined.


(** A first visit: the page asks to connect and draws no chat input. *)
Example first_visit :
  script typing_run new_session
  = (Returns tt,
     {| messages := []; client_id := "0b0e6e0c-7f55-4c0e-9d2b-0c1f4a1d2e3f";
        server_url := None |},
     (page_top {| messages := []; client_id := "0b0e6e0c-7f55-4c0e-9d2b-0c1f4a1d2e3f";
                  server_url := None |}
      ++ [Info "Please configure the server connection to start chatting."]
      ++ page_bottom)%list).
Proof. reflexivity. Qed.

(** A 200 answer without the fields ends the run inside [send_message]: the
    footer is not drawn, and the user turn stays in the transcript. *)
Example broken_reply_run :
  let i := {| fresh_uuid := "id"; server_host := "localhost"; server_port := 5000;
              connect_pressed := true; prompt := Some "hello";
              clock := "2024-01-01 10:00:00";
              post := answering 200 (JObject []) |} in
  fst (fst (script i new_session)) = Raises KeyError /\
  messages (snd (fst (script i new_session)))
  = [user_turn "2024-01-01 10:00:00" "hello"] /\
  ~ In (MarkdownText footer true) (snd (script i new_session)).
Proof.
  cbv zeta. split; [reflexivity|]. split; [reflexivity|].
  vm_compute. intros H.
  repeat (destruct H as [H|H]; [discriminate H|]). exact H.
Qed.

End ChatFacts.
